(** * The heartbeat cycle engine of crush, embedded in Rocq

    A shallow embedding of package [heartbeat]
    (types.go, context.go, prompt.go, adapter.go and the service file
    with [runCycle], [parseMemoryCommands], [acquireLock]), followed by
    the properties of the cycle engine that the specification states and
    by further properties read off the code.

    Conventions of the embedding:
    - Go [int] is a 64-bit integer: [Z] with the wrap-around of [++]
      written out ([Go.wrap_int]);
    - Go [string] is a byte string: [string];
    - [error] is the error message; a fallible call returns [Go.result];
    - the directory [~/.mcp] is the record [Disk]; the process state
      ([Service]), the disk and the emitted log records form the [World]
      that the service methods thread through a small state-and-error
      monad;
    - everything the code obtains from outside (wall clock, the outcome of
      file-system writes, the agent application, the liveness probe) is an
      explicit argument. *)

From Stdlib Require Import ZArith String Ascii List Lia DecimalString.
From Stdlib Require DecimalPos.
From stdpp Require Import base gmap strings list.

Open Scope string_scope.
Open Scope Z_scope.

(* ===================================================================== *)
(** ** Go values used by the package *)
(* ===================================================================== *)

Module Go.

(** [int] on the 64-bit targets the service runs on. *)
Definition int_max : Z := 9223372036854775807.
Definition int_min : Z := -9223372036854775808.

(** Two's complement wrap-around of an arithmetic result. *)
Definition wrap_int (z : Z) : Z := (z + 2 ^ 63) mod 2 ^ 64 - 2 ^ 63.

(** [fmt.Sprintf("%d", z)] *)
Definition itoa (z : Z) : string := NilZero.string_of_int (Z.to_int z).

(** A call that returns [(A, error)]: the value, or the error message. *)
Inductive result (A : Type) : Type :=
| Ok (a : A)
| Err (msg : string).
Arguments Ok {A} a.
Arguments Err {A} msg.

Definition is_ok {A} (r : result A) : bool :=
  match r with Ok _ => true | Err _ => false end.

(** [fmt.Errorf(prefix + "%w", err)] *)
Definition wrap_err {A} (prefix : string) (r : result A) : result A :=
  match r with
  | Ok a => Ok a
  | Err e => Err (prefix +:+ e)
  end.

(** A reading of the wall clock ([time.Time]), in civil fields. *)
Record Time : Type := mkTime {
  year : Z; month : Z; day : Z;
  hour : Z; minute : Z; second : Z;
  nanosecond : Z;
  zone : string
}.

Fixpoint zeros (n : nat) : string :=
  match n with
  | O => ""
  | S k => String "0"%char (zeros k)
  end.

(** A number left-padded with zeros to [width] digits. *)
Definition pad (width : nat) (z : Z) : string :=
  let d := itoa z in
  zeros (width - String.length d) +:+ d.

(** [t.Format("2006-01-02 15:04:05 MST")] *)
Definition format_log (t : Time) : string :=
  pad 4 (year t) +:+ "-" +:+ pad 2 (month t) +:+ "-" +:+ pad 2 (day t)
  +:+ " " +:+ pad 2 (hour t) +:+ ":" +:+ pad 2 (minute t) +:+ ":"
  +:+ pad 2 (second t) +:+ " " +:+ zone t.

(** [t.Format("20060102_150405")] *)
Definition format_file (t : Time) : string :=
  pad 4 (year t) +:+ pad 2 (month t) +:+ pad 2 (day t) +:+ "_"
  +:+ pad 2 (hour t) +:+ pad 2 (minute t) +:+ pad 2 (second t).

(** The zero [time.Time]. *)
Definition zero_time : Time := mkTime 1 1 1 0 0 0 0 "UTC".

(** Bytes of the ASCII range used below. *)
Definition tab : ascii := ascii_of_nat 9.
Definition nl : ascii := ascii_of_nat 10.
Definition ff : ascii := ascii_of_nat 12.
Definition cr : ascii := ascii_of_nat 13.
Definition bs : ascii := ascii_of_nat 8.

Definition is_digit (c : ascii) : bool :=
  let n := nat_of_ascii c in (48 <=? n)%nat && (n <=? 57)%nat.

Definition digit_val (c : ascii) : Z := Z.of_nat (nat_of_ascii c) - 48.

(** [strings.HasPrefix] that also returns what follows the prefix. *)
Fixpoint strip_prefix (p s : string) : option string :=
  match p with
  | EmptyString => Some s
  | String a p' =>
      match s with
      | EmptyString => None
      | String b s' => if Ascii.eqb a b then strip_prefix p' s' else None
      end
  end.

(** [s[n:]] *)
Fixpoint drop_bytes (n : nat) (s : string) : string :=
  match n with
  | O => s
  | S k => match s with EmptyString => EmptyString | String _ r => drop_bytes k r end
  end.

(** [s[:n]] *)
Definition take_bytes (n : nat) (s : string) : string := String.substring 0 n s.

End Go.

Import Go.

(* ===================================================================== *)
(** ** encoding/json, as far as the package uses it

    The only text the package decodes itself is the command block of the
    agent's answer ([json.Unmarshal] into [[]MemoryCommand]).  [Json.parse]
    is a model of the decoder's syntax check and of its decoding into
    [interface{}] values.  A number keeps its literal (the package never
    inspects one; literals outside the float64 range, which Go rejects,
    are not told apart), and bytes above the ASCII range are copied as
    they are (as Go does for valid UTF-8). *)
(* ===================================================================== *)

Module Json.

#[warnings="-register-all"] Inductive value : Type :=
| Null
| Bool (b : bool)
| Number (lit : string)
| Str (s : string)
| Array (items : list value)
| Object (members : list (string * value)).

Definition quote : ascii := ascii_of_nat 34.
Definition backslash : ascii := ascii_of_nat 92.

(** JSON white space: space, tab, line feed, carriage return. *)
Definition is_ws (c : ascii) : bool :=
  Ascii.eqb c " " || Ascii.eqb c tab || Ascii.eqb c nl || Ascii.eqb c cr.

Fixpoint skip_ws (s : string) : string :=
  match s with
  | EmptyString => EmptyString
  | String c r => if is_ws c then skip_ws r else s
  end.

Definition hex_val (c : ascii) : option Z :=
  let n := nat_of_ascii c in
  if (48 <=? n)%nat && (n <=? 57)%nat then Some (Z.of_nat n - 48)
  else if (97 <=? n)%nat && (n <=? 102)%nat then Some (Z.of_nat n - 87)
  else if (65 <=? n)%nat && (n <=? 70)%nat then Some (Z.of_nat n - 55)
  else None.

(** Four hexadecimal digits of a [\u] escape. *)
Definition hex4 (s : string) : option (Z * string) :=
  match s with
  | String a (String b (String c (String d r))) =>
      match hex_val a, hex_val b, hex_val c, hex_val d with
      | Some x, Some y, Some z, Some w => Some (((x * 16 + y) * 16 + z) * 16 + w, r)
      | _, _, _, _ => None
      end
  | _ => None
  end.

Definition byte (z : Z) : ascii := ascii_of_nat (Z.to_nat z).

(** [utf8.EncodeRune] *)
Definition utf8_encode (cp : Z) : string :=
  if cp <? 128 then String (byte cp) ""
  else if cp <? 2048 then
    String (byte (192 + cp / 64)) (String (byte (128 + cp mod 64)) "")
  else if cp <? 65536 then
    String (byte (224 + cp / 4096))
      (String (byte (128 + (cp / 64) mod 64)) (String (byte (128 + cp mod 64)) ""))
  else
    String (byte (240 + cp / 262144))
      (String (byte (128 + (cp / 4096) mod 64))
         (String (byte (128 + (cp / 64) mod 64)) (String (byte (128 + cp mod 64)) ""))).

Definition replacement_char : Z := 65533.

Definition is_surrogate (u : Z) : bool := (55296 <=? u) && (u <? 57344).

(** [utf16.DecodeRune] *)
Definition decode_pair (hi lo : Z) : Z :=
  if (55296 <=? hi) && (hi <? 56320) && (56320 <=? lo) && (lo <? 57344)
  then (hi - 55296) * 1024 + (lo - 56320) + 65536
  else replacement_char.

Definition simple_escape (e : ascii) : option ascii :=
  if Ascii.eqb e quote then Some quote
  else if Ascii.eqb e backslash then Some backslash
  else if Ascii.eqb e "/" then Some "/"%char
  else if Ascii.eqb e "b" then Some bs
  else if Ascii.eqb e "f" then Some ff
  else if Ascii.eqb e "n" then Some nl
  else if Ascii.eqb e "r" then Some cr
  else if Ascii.eqb e "t" then Some tab
  else None.

Definition cons_out (p : string) (r : option (string * string)) : option (string * string) :=
  match r with
  | Some (out, rest) => Some (p +:+ out, rest)
  | None => None
  end.

(** A string literal after its opening quote: the decoded text and
    what follows the closing quote. *)
Fixpoint unquote (fuel : nat) (s : string) : option (string * string) :=
  match fuel with
  | O => None
  | S f =>
      match s with
      | EmptyString => None
      | String c r =>
          if Ascii.eqb c quote then Some ("", r)
          else if Ascii.eqb c backslash then
            match r with
            | EmptyString => None
            | String e r1 =>
                if Ascii.eqb e "u" then
                  match hex4 r1 with
                  | None => None
                  | Some (u, r2) =>
                      if is_surrogate u then
                        match r2 with
                        | String b1 (String b2 r3) =>
                            if Ascii.eqb b1 backslash && Ascii.eqb b2 "u" then
                              match hex4 r3 with
                              | Some (u2, r4) =>
                                  if decode_pair u u2 =? replacement_char
                                  then cons_out (utf8_encode replacement_char) (unquote f r2)
                                  else cons_out (utf8_encode (decode_pair u u2)) (unquote f r4)
                              | None => cons_out (utf8_encode replacement_char) (unquote f r2)
                              end
                            else cons_out (utf8_encode replacement_char) (unquote f r2)
                        | _ => cons_out (utf8_encode replacement_char) (unquote f r2)
                        end
                      else cons_out (utf8_encode u) (unquote f r2)
                  end
                else
                  match simple_escape e with
                  | Some b => cons_out (String b "") (unquote f r1)
                  | None => None
                  end
            end
          else if (nat_of_ascii c <? 32)%nat then None
          else cons_out (String c "") (unquote f r)
      end
  end.

Fixpoint span_digits (s : string) : string * string :=
  match s with
  | EmptyString => ("", "")
  | String c r =>
      if is_digit c then let (d, rest) := span_digits r in (String c d, rest)
      else ("", s)
  end.

(** The fraction of a number, if any. *)
Definition parse_frac (s : string) : option (string * string) :=
  match s with
  | String "."%char r =>
      let (d, rest) := span_digits r in
      match d with
      | EmptyString => None
      | _ => Some ("." +:+ d, rest)
      end
  | _ => Some ("", s)
  end.

(** The exponent of a number, if any. *)
Definition parse_exp (s : string) : option (string * string) :=
  match s with
  | String c r =>
      if Ascii.eqb c "e" || Ascii.eqb c "E" then
        let (sg, r1) :=
          match r with
          | String g r' =>
              if Ascii.eqb g "+" || Ascii.eqb g "-" then (String g "", r') else ("", r)
          | EmptyString => ("", r)
          end in
        let (d, rest) := span_digits r1 in
        match d with
        | EmptyString => None
        | _ => Some (String c sg +:+ d, rest)
        end
      else Some ("", s)
  | EmptyString => Some ("", s)
  end.

(** A number literal: an optional minus, [0] or a digit string that does
    not start with [0], an optional fraction, an optional exponent. *)
Definition parse_number (s : string) : option (string * string) :=
  let (sg, r0) :=
    match s with
    | String "-"%char r => ("-", r)
    | _ => ("", s)
    end in
  let int_part :=
    match r0 with
    | String c r1 =>
        if Ascii.eqb c "0" then Some ("0", r1)
        else if is_digit c then let (d, rest) := span_digits r1 in Some (String c d, rest)
        else None
    | EmptyString => None
    end in
  match int_part with
  | None => None
  | Some (i, r2) =>
      match parse_frac r2 with
      | None => None
      | Some (fr, r3) =>
          match parse_exp r3 with
          | None => None
          | Some (ex, r4) => Some (sg +:+ i +:+ fr +:+ ex, r4)
          end
      end
  end.

Definition literal (word : string) (v : value) (s : string) : option (value * string) :=
  match strip_prefix word s with
  | Some r => Some (v, r)
  | None => None
  end.

(** One value, the elements of an array after its bracket, the members
    of an object after its brace. *)
Fixpoint parse_value (fuel : nat) (s : string) : option (value * string) :=
  match fuel with
  | O => None
  | S f =>
      match skip_ws s with
      | EmptyString => None
      | String c r =>
          if Ascii.eqb c "{" then
            match skip_ws r with
            | String "}"%char r' => Some (Object [], r')
            | _ =>
                match parse_members f r with
                | Some (ms, r') => Some (Object ms, r')
                | None => None
                end
            end
          else if Ascii.eqb c "[" then
            match skip_ws r with
            | String "]"%char r' => Some (Array [], r')
            | _ =>
                match parse_elements f r with
                | Some (vs, r') => Some (Array vs, r')
                | None => None
                end
            end
          else if Ascii.eqb c quote then
            match unquote (S (String.length r)) r with
            | Some (t, r') => Some (Str t, r')
            | None => None
            end
          else if Ascii.eqb c "t" then literal "rue" (Bool true) r
          else if Ascii.eqb c "f" then literal "alse" (Bool false) r
          else if Ascii.eqb c "n" then literal "ull" Null r
          else
            match parse_number (String c r) with
            | Some (lit, r') => Some (Number lit, r')
            | None => None
            end
      end
  end
with parse_elements (fuel : nat) (s : string) : option (list value * string) :=
  match fuel with
  | O => None
  | S f =>
      match parse_value f s with
      | None => None
      | Some (v, r) =>
          match skip_ws r with
          | String c r' =>
              if Ascii.eqb c "," then
                match parse_elements f r' with
                | Some (vs, r'') => Some (v :: vs, r'')
                | None => None
                end
              else if Ascii.eqb c "]" then Some ([v], r')
              else None
          | EmptyString => None
          end
      end
  end
with parse_members (fuel : nat) (s : string) : option (list (string * value) * string) :=
  match fuel with
  | O => None
  | S f =>
      match skip_ws s with
      | EmptyString => None
      | String c r =>
          if Ascii.eqb c quote then
            match unquote (S (String.length r)) r with
            | None => None
            | Some (k, r1) =>
                match skip_ws r1 with
                | String ":"%char r2 =>
                    match parse_value f r2 with
                    | None => None
                    | Some (v, r3) =>
                        match skip_ws r3 with
                        | String d r4 =>
                            if Ascii.eqb d "," then
                              match parse_members f r4 with
                              | Some (ms, r5) => Some ((k, v) :: ms, r5)
                              | None => None
                              end
                            else if Ascii.eqb d "}" then Some ([(k, v)], r4)
                            else None
                        | EmptyString => None
                        end
                    end
                | _ => None
                end
            end
          else None
      end
  end.

(** The whole text is one value, white space around it allowed. *)
Definition parse (s : string) : option value :=
  match parse_value (2 * String.length s + 2) s with
  | Some (v, r) =>
      match skip_ws r with
      | EmptyString => Some v
      | _ => None
      end
  | None => None
  end.

(** A string literal as the encoder writes it, for plain ASCII text. *)
Definition quoted (s : string) : string :=
  String quote s +:+ String quote "".

End Json.

(* ===================================================================== *)
(** ** types.go *)
(* ===================================================================== *)

(** Something the MCP has learned or noticed. *)
Module Observation.
Record t : Type := mk {
  Content : string;
  Timestamp : Time;
  Cycle : Z
}.
End Observation.

(** A codified pattern or rule. *)
Module Lesson.
Record t : Type := mk {
  Content : string;
  Timestamp : Time;
  Cycle : Z;
  Confidence : string
}.
End Lesson.

(** [Hypothesis], a theory under test ([Hyp]: the name is reserved). *)
Module Hyp.
Record t : Type := mk {
  Content : string;
  Timestamp : Time;
  Cycle : Z;
  Status : string;
  Evidence : list string
}.
End Hyp.

(** An approach used to accomplish goals. *)
Module Strategy.
Record t : Type := mk {
  Name : string;
  Description : string;
  Timestamp : Time;
  Cycle : Z;
  Effectiveness : string
}.
End Strategy.

Module ContextMeta.
Record t : Type := mk {
  Version : string;
  CreatedAt : Time;
  UpdatedAt : Time;
  TotalCycles : Z
}.
End ContextMeta.

(** [Context], the self-managed memory (the knowledge base).  The name is
    a reserved word here, hence [Ctx]. *)
Module Ctx.
Record t : Type := mk {
  Observations : list Observation.t;
  Lessons : list Lesson.t;
  Hypotheses : list Hyp.t;
  Strategies : list Strategy.t;
  Metadata : ContextMeta.t
}.

Definition with_Observations (l : list Observation.t) (c : t) : t :=
  mk l (Lessons c) (Hypotheses c) (Strategies c) (Metadata c).
Definition with_Lessons (l : list Lesson.t) (c : t) : t :=
  mk (Observations c) l (Hypotheses c) (Strategies c) (Metadata c).
Definition with_Hypotheses (l : list Hyp.t) (c : t) : t :=
  mk (Observations c) (Lessons c) l (Strategies c) (Metadata c).
Definition with_Strategies (l : list Strategy.t) (c : t) : t :=
  mk (Observations c) (Lessons c) (Hypotheses c) l (Metadata c).
Definition with_Metadata (m : ContextMeta.t) (c : t) : t :=
  mk (Observations c) (Lessons c) (Hypotheses c) (Strategies c) m.

(** [ctx.Metadata.TotalCycles = n] *)
Definition set_TotalCycles (n : Z) (c : t) : t :=
  with_Metadata
    (ContextMeta.mk (ContextMeta.Version (Metadata c)) (ContextMeta.CreatedAt (Metadata c))
       (ContextMeta.UpdatedAt (Metadata c)) n) c.

(** [ctx.Metadata.UpdatedAt = now] *)
Definition set_UpdatedAt (now : Time) (c : t) : t :=
  with_Metadata
    (ContextMeta.mk (ContextMeta.Version (Metadata c)) (ContextMeta.CreatedAt (Metadata c))
       now (ContextMeta.TotalCycles (Metadata c))) c.
End Ctx.

(** [Goal], a specific objective ([GoalRec]: the name is reserved). *)
Module GoalRec.
Record t : Type := mk {
  ID : Z;
  Title : string;
  Description : string;
  Priority : string;
  Status : string;
  CreatedAt : Time;
  Progress : list string
}.
End GoalRec.

Module GoalsMeta.
Record t : Type := mk {
  NextID : Z;
  UpdatedAt : Time
}.
End GoalsMeta.

Module Goals.
Record t : Type := mk {
  Goals : list GoalRec.t;
  Metadata : GoalsMeta.t
}.
End Goals.

(** A command from the model to update its own context.  [Data] is a
    [map[string]interface{}]; a nil map and an empty one answer every
    lookup alike and are both the empty [gmap]. *)
Module MemoryCommand.
Record t : Type := mk {
  Command : string;
  Reason : string;
  Data : gmap string Json.value
}.
End MemoryCommand.

(* ===================================================================== *)
(** ** context.go: the state directory and the ContextManager *)
(* ===================================================================== *)

(** The bytes of a JSON state file: the encoding of a value ([a] is what
    [json.Unmarshal] yields for them), or bytes that [json.Unmarshal]
    rejects with error [why]. *)
Inductive content (A : Type) : Type :=
| JsonOf (a : A)
| Malformed (raw why : string).
Arguments JsonOf {A} a.
Arguments Malformed {A} raw why.

(** A path of the state directory: no such file, a file that cannot be
    read (error [why]), or a file with its bytes. *)
Inductive file (A : Type) : Type :=
| Missing
| Unreadable (why : string)
| Holds (bytes : A).
Arguments Missing {A}.
Arguments Unreadable {A} why.
Arguments Holds {A} bytes.

(** The directory [~/.mcp]. *)
Record Disk : Type := mkDisk {
  contextFile : file (content Ctx.t);       (* context.json *)
  goalsFile : file (content Goals.t);           (* active-goals.json *)
  missionFile : file string;                    (* mission.md *)
  logFile : string;                             (* mission-log.md, empty when absent *)
  backupDir : gmap string (content Ctx.t);  (* backups/ *)
  pidFile : file string                         (* heartbeat.pid *)
}.

Definition with_contextFile (f : file (content Ctx.t)) (d : Disk) : Disk :=
  mkDisk f (goalsFile d) (missionFile d) (logFile d) (backupDir d) (pidFile d).
Definition with_goalsFile (f : file (content Goals.t)) (d : Disk) : Disk :=
  mkDisk (contextFile d) f (missionFile d) (logFile d) (backupDir d) (pidFile d).
Definition with_logFile (s : string) (d : Disk) : Disk :=
  mkDisk (contextFile d) (goalsFile d) (missionFile d) s (backupDir d) (pidFile d).
Definition with_backupDir (b : gmap string (content Ctx.t)) (d : Disk) : Disk :=
  mkDisk (contextFile d) (goalsFile d) (missionFile d) (logFile d) b (pidFile d).
Definition with_pidFile (f : file string) (d : Disk) : Disk :=
  mkDisk (contextFile d) (goalsFile d) (missionFile d) (logFile d) (backupDir d) f.

(** The outcome of a write-like system call: done, or the error text. *)
Definition outcome : Type := result unit.

(** The process state of the service: the fields of [Service] that change. *)
Record Service : Type := mkService {
  cycleNumber : Z;
  running : bool
}.

(** A record written through [slog]. *)
Inductive LogRecord : Type :=
| LogInfo (msg : string) (attrs : list (string * string))
| LogWarn (msg : string) (attrs : list (string * string))
| LogError (msg : string) (attrs : list (string * string)).

Record World : Type := mkWorld {
  svc : Service;
  disk : Disk;
  slog : list LogRecord
}.

Definition with_svc (s : Service) (w : World) : World := mkWorld s (disk w) (slog w).
Definition with_disk (d : Disk) (w : World) : World := mkWorld (svc w) d (slog w).
Definition with_slog (l : list LogRecord) (w : World) : World := mkWorld (svc w) (disk w) l.

(** Computations over the world that may return an error; the world
    reached when the error is returned is kept. *)
Definition M (A : Type) : Type := World -> World * result A.

Definition ret {A} (a : A) : M A := fun w => (w, Ok a).
Definition fail {A} (msg : string) : M A := fun w => (w, Err msg).

Definition bind {A B} (m : M A) (k : A -> M B) : M B :=
  fun w =>
    match m w with
    | (w', Ok a) => k a w'
    | (w', Err e) => (w', Err e)
    end.

Declare Scope go_scope.
Delimit Scope go_scope with go.
Notation "x <- m ;; k" := (bind m (fun x => k))
  (at level 100, m at next level, right associativity) : go_scope.
Notation "m ;;; k" := (bind m (fun _ => k))
  (at level 100, right associativity) : go_scope.
Open Scope go_scope.

(** [if err != nil { return fmt.Errorf(prefix + ": %w", err) }] *)
Definition wrapping {A} (prefix : string) (m : M A) : M A :=
  fun w => let (w', r) := m w in (w', wrap_err prefix r).

(** A call whose error the caller inspects itself: never fails, hands the
    result over. *)
Definition attempt {A} (m : M A) : M (result A) :=
  fun w => let (w', r) := m w in (w', Ok r).

Definition get_disk : M Disk := fun w => (w, Ok (disk w)).
Definition put_disk (d : Disk) : M unit := fun w => (with_disk d w, Ok tt).
Definition get_svc : M Service := fun w => (w, Ok (svc w)).
Definition put_svc (s : Service) : M unit := fun w => (with_svc s w, Ok tt).
Definition emit (r : LogRecord) : M unit := fun w => (with_slog (slog w ++ [r]) w, Ok tt).

(** [createEmptyContext] *)
Definition createEmptyContext (now : Time) : Ctx.t :=
  Ctx.mk [] [] [] [] (ContextMeta.mk "1.0" now now 0).

(** [LoadContext]: the context on disk, a fresh one when there is no file
    ([now] is the clock read by [createEmptyContext]). *)
Definition LoadContext (now : Time) : M Ctx.t :=
  d <- get_disk ;;
  match contextFile d with
  | Missing => ret (createEmptyContext now)
  | Unreadable why => fail ("failed to read context file: " +:+ why)
  | Holds (Malformed _ why) => fail ("failed to parse context JSON: " +:+ why)
  | Holds (JsonOf ctx) => ret ctx
  end.

(** [SaveContext]: stamps [UpdatedAt] and rewrites context.json; [write]
    is the outcome of [os.WriteFile] (a failed write is taken to leave the
    file as it was).  Encoding a context does not fail. *)
Definition SaveContext (now : Time) (write : outcome) (ctx : Ctx.t) : M unit :=
  let ctx' := Ctx.set_UpdatedAt now ctx in
  match write with
  | Err e => fail ("failed to write context file: " +:+ e)
  | Ok _ =>
      d <- get_disk ;;
      put_disk (with_contextFile (Holds (JsonOf ctx')) d)
  end.

(** The name of a backup file under backups/. *)
Definition backupName (now : Time) (reason : string) : string :=
  "context_" +:+ format_file now +:+ "_" +:+ reason +:+ ".json".

(** [BackupContext]: copies context.json under a timestamped name;
    [mkdir] and [write] are the outcomes of [os.MkdirAll] and
    [os.WriteFile]. *)
Definition BackupContext (now : Time) (mkdir write : outcome) (reason : string) : M unit :=
  d <- get_disk ;;
  match contextFile d with
  | Missing => ret tt (* Nothing to backup *)
  | Unreadable why =>
      match mkdir with
      | Err e => fail ("failed to create backup directory: " +:+ e)
      | Ok _ => fail ("failed to read context for backup: " +:+ why)
      end
  | Holds data =>
      match mkdir, write with
      | Err e, _ => fail ("failed to create backup directory: " +:+ e)
      | Ok _, Err e => fail ("failed to write backup: " +:+ e)
      | Ok _, Ok _ =>
          put_disk (with_backupDir (<[backupName now reason := data]> (backupDir d)) d)
      end
  end.

(** [LoadGoals] *)
Definition LoadGoals : M Goals.t :=
  d <- get_disk ;;
  match goalsFile d with
  | Missing => ret (Goals.mk [] (GoalsMeta.mk 1 zero_time))
  | Unreadable why => fail ("failed to read goals file: " +:+ why)
  | Holds (Malformed _ why) => fail ("failed to parse goals JSON: " +:+ why)
  | Holds (JsonOf goals) => ret goals
  end.

(** [SaveGoals] *)
Definition SaveGoals (now : Time) (write : outcome) (goals : Goals.t) : M unit :=
  let goals' := Goals.mk (Goals.Goals goals)
                  (GoalsMeta.mk (GoalsMeta.NextID (Goals.Metadata goals)) now) in
  match write with
  | Err e => fail ("failed to write goals file: " +:+ e)
  | Ok _ =>
      d <- get_disk ;;
      put_disk (with_goalsFile (Holds (JsonOf goals')) d)
  end.

(** [LoadMission] *)
Definition LoadMission : M string :=
  d <- get_disk ;;
  match missionFile d with
  | Missing => ret ""
  | Unreadable why => fail ("failed to read mission file: " +:+ why)
  | Holds data => ret data
  end.

Definition newline : string := String nl "".

(** [AppendLog]: [open] and [write] are the outcomes of [os.OpenFile] and
    of [WriteString]. *)
Definition AppendLog (now : Time) (open write : outcome) (entry : string) : M unit :=
  match open, write with
  | Err e, _ => fail ("failed to open log file: " +:+ e)
  | Ok _, Err e => fail ("failed to write to log: " +:+ e)
  | Ok _, Ok _ =>
      d <- get_disk ;;
      let logEntry := newline +:+ "### " +:+ format_log now +:+ newline +:+ entry +:+ newline in
      put_disk (with_logFile (logFile d +:+ logEntry) d)
  end.

(** [v.(string)] on the result of a map lookup. *)
Definition as_string (v : option Json.value) : option string :=
  match v with
  | Some (Json.Str s) => Some s
  | _ => None
  end.

(** [ExecuteMemoryCommand]: the context after the command (Go updates it
    in place) and the returned error. *)
Definition ExecuteMemoryCommand (now : Time) (ctx : Ctx.t) (cmd : MemoryCommand.t) (cycle : Z)
  : Ctx.t * outcome :=
  let data := MemoryCommand.Data cmd in
  let command := MemoryCommand.Command cmd in
  if String.eqb command "add_observation" then
    match as_string (data !! "content") with
    | None => (ctx, Err "observation content must be a string")
    | Some content =>
        (Ctx.with_Observations
           (Ctx.Observations ctx ++ [Observation.mk content now cycle]) ctx, Ok tt)
    end
  else if String.eqb command "add_lesson" then
    match as_string (data !! "content") with
    | None => (ctx, Err "lesson content must be a string")
    | Some content =>
        let confidence := default "" (as_string (data !! "confidence")) in
        (Ctx.with_Lessons
           (Ctx.Lessons ctx ++ [Lesson.mk content now cycle confidence]) ctx, Ok tt)
    end
  else if String.eqb command "add_hypothesis" then
    match as_string (data !! "content") with
    | None => (ctx, Err "hypothesis content must be a string")
    | Some content =>
        (Ctx.with_Hypotheses
           (Ctx.Hypotheses ctx ++ [Hyp.mk content now cycle "testing" []]) ctx, Ok tt)
    end
  else if String.eqb command "add_strategy" then
    match as_string (data !! "name"), as_string (data !! "description") with
    | Some name, Some desc =>
        (Ctx.with_Strategies
           (Ctx.Strategies ctx ++ [Strategy.mk name desc now cycle ""]) ctx, Ok tt)
    | _, _ => (ctx, Err "strategy requires name and description strings")
    end
  else if String.eqb command "prune_old" then (ctx, Ok tt)
  else (ctx, Err ("unknown memory command: " +:+ command)).

(* ===================================================================== *)
(** ** prompt.go: the PromptBuilder *)
(* ===================================================================== *)

(** Concatenation of the pieces written to the [strings.Builder]. *)
Definition cat (pieces : list string) : string := fold_right String.append "" pieces.

(** One iteration of the loop over [goals.Goals] ([i] is the index). *)
Definition writeGoal (i : nat) (goal : GoalRec.t) : string :=
  if negb (String.eqb (GoalRec.Status goal) "active") then ""
  else
    cat [ itoa (Z.of_nat i + 1); ". **["; GoalRec.Priority goal; "] "; GoalRec.Title goal; "**";
          newline;
          "   "; GoalRec.Description goal; newline;
          match last (GoalRec.Progress goal) with
          | Some latest => cat ["   *Latest: "; latest; "*"; newline]
          | None => ""
          end;
          newline ].

Definition writeGoals (goals : Goals.t) : string :=
  match Goals.Goals goals with
  | [] => cat ["*No active goals*"; newline; newline]
  | gs => cat (imap writeGoal gs)
  end.

(** The observations the prompt shows: [ctx.Observations[start:]] with
    [start = len - 5], raised to [0]. *)
Definition recentObservations (obs : list Observation.t) : list Observation.t :=
  let start := Z.of_nat (length obs) - 5 in
  let start := if start <? 0 then 0 else start in
  drop (Z.to_nat start) obs.

Definition writeObservation (obs : Observation.t) : string :=
  cat ["- [Cycle "; itoa (Observation.Cycle obs); "] "; Observation.Content obs; newline].

Definition writeObservations (obs : list Observation.t) : string :=
  match obs with
  | [] => ""
  | _ =>
      cat [ "### Recent Observations"; newline; newline;
            cat (map writeObservation (recentObservations obs));
            newline ]
  end.

Definition writeLesson (lesson : Lesson.t) : string :=
  let confidence :=
    if negb (String.eqb (Lesson.Confidence lesson) "")
    then cat [" ["; Lesson.Confidence lesson; " confidence]"]
    else "" in
  cat ["- "; Lesson.Content lesson; confidence; newline].

Definition writeLessons (lessons : list Lesson.t) : string :=
  match lessons with
  | [] => ""
  | _ => cat ["### Lessons Learned"; newline; newline; cat (map writeLesson lessons); newline]
  end.

Definition writeHypothesis (hyp : Hyp.t) : string :=
  if String.eqb (Hyp.Status hyp) "testing"
  then cat ["- "; Hyp.Content hyp; newline]
  else "".

Definition writeHypotheses (hyps : list Hyp.t) : string :=
  match hyps with
  | [] => ""
  | _ =>
      cat ["### Hypotheses Being Tested"; newline; newline; cat (map writeHypothesis hyps); newline]
  end.

Definition writeStrategy (strat : Strategy.t) : string :=
  let effectiveness :=
    if negb (String.eqb (Strategy.Effectiveness strat) "")
    then cat [" - "; Strategy.Effectiveness strat]
    else "" in
  cat ["- **"; Strategy.Name strat; "**: "; Strategy.Description strat; effectiveness; newline].

Definition writeStrategies (strats : list Strategy.t) : string :=
  match strats with
  | [] => ""
  | _ => cat ["### Strategies"; newline; newline; cat (map writeStrategy strats); newline]
  end.

(** What [BuildUserPrompt] writes before the observations. *)
Definition promptHead (now : Time) (goals : Goals.t) (cycleNumber : Z) : string :=
  cat [ "# MCP Heartbeat Cycle "; itoa cycleNumber; newline; newline;
        "**Time**: "; format_log now; newline; newline;
        "## Mission"; newline; newline;
        "Build companies and fortunes for Lennart and Tana. Pursue knowledge, prosperity, and the conquest of space.";
        newline; newline;
        "## Active Goals"; newline; newline;
        writeGoals goals;
        "## Your Knowledge"; newline; newline ].

(** What [BuildUserPrompt] writes after the observations. *)
Definition promptTail (ctx : Ctx.t) : string :=
  cat [ writeLessons (Ctx.Lessons ctx);
        writeHypotheses (Ctx.Hypotheses ctx);
        writeStrategies (Ctx.Strategies ctx);
        "## This Cycle"; newline; newline;
        "What will you work on this cycle? Choose a goal, use tools to make progress, and update your memory.";
        newline; newline;
        "Remember:"; newline;
        "- Use websearch + fetch to research autonomously"; newline;
        "- Check your observations before re-researching"; newline;
        "- Update your memory with what you learn"; newline;
        "- Work incrementally toward goals"; newline; newline;
        "Begin your autonomous work now."; newline ].

(** [BuildUserPrompt]; [now] is the reading of [time.Now()] in the
    header.  The [mission] argument is received and not used. *)
Definition BuildUserPrompt (now : Time) (ctx : Ctx.t) (goals : Goals.t) (mission : string)
    (cycleNumber : Z) : string :=
  cat [ promptHead now goals cycleNumber;
        writeObservations (Ctx.Observations ctx);
        promptTail ctx ].

(* ===================================================================== *)
(** ** The service: extraction of the command block *)
(* ===================================================================== *)

(** The pattern of [parseMemoryCommands],
    [(?s)MEMORY_COMMANDS:\s*(\[.*?\](?:\s*\n|$))], matched the way
    [regexp] does: leftmost start, then the choices a backtracking matcher
    prefers (greedy [\s*], lazy [.*?], first alternative first). *)
Module Re.

(** [\s]: tab, line feed, form feed, carriage return, space. *)
Definition is_space (c : ascii) : bool :=
  Ascii.eqb c tab || Ascii.eqb c nl || Ascii.eqb c ff || Ascii.eqb c cr || Ascii.eqb c " ".

(** The longest run of [\s] at the start of [s], and the rest. *)
Fixpoint span_space (s : string) : string * string :=
  match s with
  | EmptyString => ("", "")
  | String c r =>
      if is_space c then let (ws, rest) := span_space r in (String c ws, rest)
      else ("", s)
  end.

(** [\s*\n] inside a run of white space, greedy: the run up to its last
    line feed. *)
Fixpoint through_last_nl (ws : string) : option string :=
  match ws with
  | EmptyString => None
  | String c r =>
      match through_last_nl r with
      | Some p => Some (String c p)
      | None => if Ascii.eqb c nl then Some (String c "") else None
      end
  end.

(** [(?:\s*\n|$)] at the start of [s]: the text matched and the rest. *)
Definition match_tail (s : string) : option (string * string) :=
  match through_last_nl (fst (span_space s)) with
  | Some p => Some (p, drop_bytes (String.length p) s)
  | None =>
      match s with
      | EmptyString => Some ("", "")
      | _ => None
      end
  end.

(** [.*?\](?:\s*\n|$)] at the start of [s]: the closing bracket is tried
    at every position before one more byte is taken. *)
Fixpoint match_lazy (s : string) : option (string * string) :=
  match s with
  | EmptyString => None
  | String c r =>
      let longer :=
        match match_lazy r with
        | Some (m, rest) => Some (String c m, rest)
        | None => None
        end in
      if Ascii.eqb c "]" then
        match match_tail r with
        | Some (t, rest) => Some (String c t, rest)
        | None => longer
        end
      else longer
  end.

(** The whole pattern at the start of [s]: group 1 and the text after the
    match. *)
Definition match_here (s : string) : option (string * string) :=
  match strip_prefix "MEMORY_COMMANDS:" s with
  | None => None
  | Some r =>
      match snd (span_space r) with
      | String "["%char body =>
          match match_lazy body with
          | Some (m, rest) => Some (String "[" m, rest)
          | None => None
          end
      | _ => None
      end
  end.

(** [FindStringSubmatch]: the leftmost match; group 1 and the text after
    the match. *)
Fixpoint find (s : string) : option (string * string) :=
  match match_here s with
  | Some m => Some m
  | None =>
      match s with
      | EmptyString => None
      | String _ r => find r
      end
  end.


End Re.


(** The block that [FindStringSubmatch] hands to the decoder
    ([matches[1]]), if the pattern matches. *)
Definition firstBlock (response : string) : option string :=
  match Re.find response with
  | Some (block, _) => Some block
  | None => None
  end.

(** *** Decoding a block into [[]MemoryCommand] *)

Definition lower (c : ascii) : ascii :=
  let n := nat_of_ascii c in
  if (65 <=? n)%nat && (n <=? 90)%nat then ascii_of_nat (n + 32) else c.

Fixpoint fold_case (s : string) : string :=
  match s with
  | EmptyString => EmptyString
  | String c r => String (lower c) (fold_case r)
  end.

Inductive commandField : Type := FCommand | FReason | FData.

(** The struct field a JSON key selects: the exact tag, else the tag up
    to letter case; no field for any other key. *)
Definition fieldOf (key : string) : option commandField :=
  if String.eqb key "command" then Some FCommand
  else if String.eqb key "reason" then Some FReason
  else if String.eqb key "data" then Some FData
  else if String.eqb (fold_case key) "command" then Some FCommand
  else if String.eqb (fold_case key) "reason" then Some FReason
  else if String.eqb (fold_case key) "data" then Some FData
  else None.

(** One member of a command object stored into the struct; [None] is a
    value of the wrong JSON type for the field. *)
Definition decodeField (cmd : MemoryCommand.t) (member : string * Json.value)
  : option MemoryCommand.t :=
  let (key, v) := member in
  match fieldOf key with
  | None => Some cmd
  | Some FCommand =>
      match v with
      | Json.Str s => Some (MemoryCommand.mk s (MemoryCommand.Reason cmd) (MemoryCommand.Data cmd))
      | Json.Null => Some cmd
      | _ => None
      end
  | Some FReason =>
      match v with
      | Json.Str s => Some (MemoryCommand.mk (MemoryCommand.Command cmd) s (MemoryCommand.Data cmd))
      | Json.Null => Some cmd
      | _ => None
      end
  | Some FData =>
      match v with
      | Json.Object ms =>
          Some (MemoryCommand.mk (MemoryCommand.Command cmd) (MemoryCommand.Reason cmd)
                  (fold_left (fun m kv => <[fst kv := snd kv]> m) ms (MemoryCommand.Data cmd)))
      | Json.Null =>
          Some (MemoryCommand.mk (MemoryCommand.Command cmd) (MemoryCommand.Reason cmd) ∅)
      | _ => None
      end
  end.

Fixpoint decodeFields (cmd : MemoryCommand.t) (members : list (string * Json.value))
  : option MemoryCommand.t :=
  match members with
  | [] => Some cmd
  | m :: rest =>
      match decodeField cmd m with
      | Some cmd' => decodeFields cmd' rest
      | None => None
      end
  end.

Definition zeroCommand : MemoryCommand.t := MemoryCommand.mk "" "" ∅.

Definition decodeCommand (v : Json.value) : option MemoryCommand.t :=
  match v with
  | Json.Object ms => decodeFields zeroCommand ms
  | Json.Null => Some zeroCommand
  | _ => None
  end.

Fixpoint decodeCommandList (items : list Json.value) : option (list MemoryCommand.t) :=
  match items with
  | [] => Some []
  | v :: rest =>
      match decodeCommand v, decodeCommandList rest with
      | Some c, Some cs => Some (c :: cs)
      | _, _ => None
      end
  end.

(** [json.Unmarshal(block, &commands)] with [commands] a nil
    [[]MemoryCommand]: the decoded slice, or [None] when Unmarshal returns
    an error (syntax, or a value of the wrong type somewhere). *)
Definition unmarshalCommands (block : string) : option (list MemoryCommand.t) :=
  match Json.parse block with
  | Some (Json.Array items) => decodeCommandList items
  | Some Json.Null => Some []
  | _ => None
  end.

(** [parseMemoryCommands] *)
Definition parseMemoryCommands (response : string) : M (list MemoryCommand.t) :=
  match firstBlock response with
  | None => ret []
  | Some block =>
      match unmarshalCommands block with
      | None => emit (LogWarn "Failed to parse memory commands" []) ;;; ret []
      | Some commands => ret commands
      end
  end.

(* ===================================================================== *)
(** ** The service: summary line, lock, cycle, main loop *)
(* ===================================================================== *)

(** [regexp.MustCompile(`\r?\n`).Split(response, -1)] *)
Fixpoint splitLines (s : string) : list string :=
  match s with
  | EmptyString => [""]
  | String c r =>
      let keep :=
        match splitLines r with
        | l :: ls => String c l :: ls
        | [] => [String c ""]
        end in
      if Ascii.eqb c nl then "" :: splitLines r
      else if Ascii.eqb c cr then
        match r with
        | String c2 r2 => if Ascii.eqb c2 nl then "" :: splitLines r2 else keep
        | EmptyString => keep
        end
      else keep
  end.

(** Removal of a leading [^[#\s*-]+]. *)
Fixpoint trimMarks (line : string) : string :=
  match line with
  | EmptyString => EmptyString
  | String c r =>
      if Ascii.eqb c "#" || Re.is_space c || Ascii.eqb c "*" || Ascii.eqb c "-"
      then trimMarks r
      else line
  end.

(** [s] cut to 150 bytes, the cut marked by three dots. *)
Definition clip (s : string) : string :=
  if (150 <? String.length s)%nat then take_bytes 147 s +:+ "..." else s.

(** [extractSummary] *)
Definition extractSummary (response : string) : string :=
  match filter (fun t => (0 <? String.length t)%nat = true) (map trimMarks (splitLines response)) with
  | trimmed :: _ => clip trimmed
  | [] => clip response
  end.

(** [fmt.Sscanf(data, "%d", &pid)] on a zero [pid]: leading blanks are
    skipped (a line feed stops the scan), one sign is accepted, then the
    digits; anything that makes the scan fail leaves [0].  Text after the
    number is not looked at. *)
Fixpoint scanBlanks (s : string) : option string :=
  match s with
  | EmptyString => Some s
  | String c r =>
      if Ascii.eqb c nl then None
      else if Ascii.eqb c " " || Ascii.eqb c tab || Ascii.eqb c cr || Ascii.eqb c ff
              || Ascii.eqb c (ascii_of_nat 11)
      then scanBlanks r
      else Some s
  end.

(** The token of digits and underscores at the start of [s]. *)
Fixpoint scanToken (s : string) : string :=
  match s with
  | EmptyString => EmptyString
  | String c r => if is_digit c || Ascii.eqb c "_" then String c (scanToken r) else EmptyString
  end.

(** Decimal value of a digit string; [None] for any other byte. *)
Fixpoint decimal (acc : Z) (s : string) : option Z :=
  match s with
  | EmptyString => Some acc
  | String c r => if is_digit c then decimal (acc * 10 + digit_val c) r else None
  end.

Definition scanInt (data : string) : Z :=
  match scanBlanks data with
  | None => 0
  | Some s =>
      let (negative, s') :=
        match s with
        | String c r =>
            if Ascii.eqb c "-" then (true, r)
            else if Ascii.eqb c "+" then (false, r)
            else (false, s)
        | EmptyString => (false, s)
        end in
      match scanToken s' with
      | EmptyString => 0
      | tok =>
          match decimal 0 tok with
          | None => 0
          | Some v =>
              let i := if negative then - v else v in
              if (int_min <=? i) && (i <=? int_max) then i else 0
          end
      end
  end.

(** What the lock code obtains from the operating system: its own process
    id, the liveness probe ([os.FindProcess] and signal 0 both succeed),
    and the outcomes of [os.Remove] and [os.WriteFile] on the marker. *)
Record LockEnv : Type := mkLockEnv {
  getpid : Z;
  probe : Z -> bool;
  pid_remove : outcome;
  pid_write : outcome
}.

(** [os.Remove(s.pidFile)], its error dropped. *)
Definition removePidFile (remove : outcome) : M unit :=
  match remove with
  | Err _ => ret tt
  | Ok _ => d <- get_disk ;; put_disk (with_pidFile Missing d)
  end.

(** [acquireLock] *)
Definition acquireLock (os : LockEnv) : M unit :=
  d <- get_disk ;;
  match pidFile d with
  | Holds data =>
      let oldPID := scanInt data in
      if probe os oldPID
      then fail ("heartbeat already running with PID " +:+ itoa oldPID)
      else
        emit (LogWarn "Removing stale PID file" [("old_pid", itoa oldPID)]) ;;;
        removePidFile (pid_remove os)
  | _ => ret tt
  end ;;;
  match pid_write os with
  | Err e => fail ("failed to create PID file: " +:+ e)
  | Ok _ => d <- get_disk ;; put_disk (with_pidFile (Holds (itoa (getpid os))) d)
  end.

(** [releaseLock] *)
Definition releaseLock (os : LockEnv) : M unit :=
  d <- get_disk ;;
  match pidFile d with
  | Holds data =>
      if scanInt data =? getpid os then removePidFile (pid_remove os) else ret tt
  | _ => ret tt
  end.

(** [GetStatus] *)
Definition GetStatus (os : LockEnv) (d : Disk) : result (bool * Z) :=
  match pidFile d with
  | Missing => Ok (false, 0)
  | Unreadable why => Err why
  | Holds data =>
      let pid := scanInt data in
      if probe os pid then Ok (true, pid) else Ok (false, 0)
  end.

(** [AppInterface], as the cycle uses it.  [CoderAgentRun sessionID prompt]
    stands for the call, the wait on the [done] channel and
    [CoderAgentGetLastResponse]: the final text of an agent that finishes,
    or the error of the call. *)
Record AppInterface : Type := mkApp {
  SessionsCreate : string -> result string;
  CoderAgentRun : string -> string -> result string
}.

(** What one cycle obtains from outside: the application, the readings of
    the clock in program order, and the outcomes of its writes. *)
Record CycleEnv : Type := mkCycleEnv {
  app : AppInterface;
  t_load : Time;               (* createEmptyContext *)
  t_prompt : Time;             (* BuildUserPrompt *)
  t_backup : Time;             (* BackupContext *)
  t_command : nat -> Time;     (* ExecuteMemoryCommand, by position in the block *)
  t_save : Time;               (* SaveContext *)
  t_log : Time;                (* AppendLog *)
  duration : string;           (* time.Since(startTime), printed *)
  backup_mkdir : outcome;
  backup_write : outcome;
  save_write : outcome;
  log_open : outcome;
  log_write : outcome
}.

Definition lift {A} (r : result A) : M A := fun w => (w, r).

(** [s.cycleNumber++], returning the new number. *)
Definition nextCycleNumber : M Z :=
  s <- get_svc ;;
  let n := wrap_int (cycleNumber s + 1) in
  put_svc (mkService n (running s)) ;;;
  ret n.

(** [runCycle] up to the agent's answer: the cycle number, the loaded
    context and the answer. *)
Definition loadAndDelegate (env : CycleEnv) : M (Z * Ctx.t * string) :=
  n <- nextCycleNumber ;;
  ctx <- wrapping "failed to load context: " (LoadContext (t_load env)) ;;
  goals <- wrapping "failed to load goals: " LoadGoals ;;
  mission <- wrapping "failed to load mission: " LoadMission ;;
  let userPrompt := BuildUserPrompt (t_prompt env) ctx goals mission n in
  let sessionTitle := "MCP Heartbeat Cycle " +:+ itoa n in
  sessionID <- wrapping "failed to create session: " (lift (SessionsCreate (app env) sessionTitle)) ;;
  (* PermissionsAutoApprove(sessionID): no effect on the world *)
  response <- wrapping "failed to run agent: " (lift (CoderAgentRun (app env) sessionID userPrompt)) ;;
  ret (n, ctx, response).

(** The loop over the commands of the block; [i] is the position of the
    first of [cmds]. *)
Fixpoint executeCommands (clock : nat -> Time) (cycle : Z) (i : nat) (ctx : Ctx.t)
    (cmds : list MemoryCommand.t) : M Ctx.t :=
  match cmds with
  | [] => ret ctx
  | cmd :: rest =>
      let (ctx', r) := ExecuteMemoryCommand (clock i) ctx cmd cycle in
      match r with
      | Err e =>
          emit (LogWarn "Failed to execute memory command"
                  [("command", MemoryCommand.Command cmd); ("error", e)])
      | Ok _ =>
          emit (LogInfo ("  ✓ " +:+ MemoryCommand.Command cmd)
                  [("reason", MemoryCommand.Reason cmd)])
      end ;;;
      executeCommands clock cycle (S i) ctx' rest
  end.

(** [runCycle] from [parseMemoryCommands] to the end of the command
    loop: the context to save and the number of commands. *)
Definition applyCommands (env : CycleEnv) (n : Z) (ctx : Ctx.t) (response : string)
  : M (Ctx.t * nat) :=
  memoryCommands <- parseMemoryCommands response ;;
  match memoryCommands with
  | [] => ret (ctx, 0%nat)
  | _ =>
      emit (LogInfo "Processing memory commands"
              [("count", itoa (Z.of_nat (length memoryCommands)))]) ;;;
      (* Backup before modifying; the returned error is dropped *)
      _ <- attempt (BackupContext (t_backup env) (backup_mkdir env) (backup_write env)
                      ("cycle_" +:+ itoa n)) ;;
      ctx' <- executeCommands (t_command env) n 0 ctx memoryCommands ;;
      ret (ctx', length memoryCommands)
  end.

(** The entry of the mission log for a cycle. *)
Definition cycleLogEntry (n : Z) (summary : string) (count : nat) (dur : string) : string :=
  cat [ "**Cycle "; itoa n; "**"; newline; newline;
        "Summary: "; summary; newline;
        "Memory Updates: "; itoa (Z.of_nat count); " commands"; newline;
        "Duration: "; dur; newline;
        "Status: ✅ Success"; newline ].

(** [runCycle] from the update of [TotalCycles] to the end. *)
Definition persistAndLog (env : CycleEnv) (n : Z) (ctx : Ctx.t) (response : string)
    (count : nat) : M unit :=
  let ctx := Ctx.set_TotalCycles n ctx in
  wrapping "failed to save context: " (SaveContext (t_save env) (save_write env) ctx) ;;;
  let summary := extractSummary response in
  r <- attempt (AppendLog (t_log env) (log_open env) (log_write env)
                  (cycleLogEntry n summary count (duration env))) ;;
  match r with
  | Err e => emit (LogWarn "Failed to append to log" [("error", e)])
  | Ok _ => ret tt
  end.

(** [runCycle]: one heartbeat cycle.  (The banner lines written to the
    logger are left out; the records of the command loop and of failures
    are kept.) *)
Definition runCycle (env : CycleEnv) : M unit :=
  x <- loadAndDelegate env ;;
  let '(n, ctx, response) := x in
  y <- applyCommands env n ctx response ;;
  let '(ctx', count) := y in
  persistAndLog env n ctx' response count.

(** One firing of the ticker in the loop of [Start]: the cycle runs, its
    error is logged, the loop goes on.  The result of [runCycle] is handed
    back for the record. *)
Definition tick (env : CycleEnv) : M (result unit) :=
  r <- attempt (runCycle env) ;;
  match r with
  | Err e => emit (LogError "Cycle failed" [("error", e)])
  | Ok _ => ret tt
  end ;;;
  ret r.

(** The ticks of a run, with what each [runCycle] returned. *)
Fixpoint runCycles (envs : list CycleEnv) (w : World) : World * list (result unit) :=
  match envs with
  | [] => (w, [])
  | env :: rest =>
      match tick env w with
      | (w1, Ok r) => let (w2, rs) := runCycles rest w1 in (w2, r :: rs)
      | (w1, Err e) => let (w2, rs) := runCycles rest w1 in (w2, Err e :: rs)
      end
  end.

(** What the [select] of the main loop receives. *)
Inductive Event : Type :=
| Tick (env : CycleEnv)
| Signal (sig : string)
| Cancelled.

Definition setRunning (b : bool) : M unit :=
  s <- get_svc ;; put_svc (mkService (cycleNumber s) b).

(** The main loop [for s.running { select ... }] over the events that
    arrive; it ends with the first signal or cancellation. *)
Fixpoint mainLoop (events : list Event) : M unit :=
  match events with
  | [] => ret tt
  | Tick env :: rest => _ <- tick env ;; mainLoop rest
  | Signal sig :: _ =>
      emit (LogInfo "Received shutdown signal" [("signal", sig)]) ;;;
      setRunning false
  | Cancelled :: _ => setRunning false
  end.

(** What [Start] obtains from outside besides the events. *)
Record StartEnv : Type := mkStartEnv {
  os_acquire : LockEnv;
  os_release : LockEnv;
  interval : string;          (* s.interval, printed *)
  t_load0 : Time;
  t_started : Time;
  t_stopped : Time;
  log_started : outcome;
  log_stopped : outcome
}.

(** [defer cleanup()] around [body]. *)
Definition deferring {A} (cleanup : M unit) (body : M A) : M A :=
  fun w =>
    let (w1, r) := body w in
    let (w2, _) := cleanup w1 in
    (w2, r).

(** [Start] between taking the lock and entering the main loop: the
    cycle number is taken from the context on disk. *)
Definition startUp (se : StartEnv) : M unit :=
  setRunning true ;;;
  ctx <- wrapping "failed to load initial context: " (LoadContext (t_load0 se)) ;;
  s <- get_svc ;;
  put_svc (mkService (ContextMeta.TotalCycles (Ctx.Metadata ctx)) (running s)) ;;;
  _ <- attempt (AppendLog (t_started se) (log_started se) (log_started se)
                  (cat [ "**Cycle "; itoa (ContextMeta.TotalCycles (Ctx.Metadata ctx));
                         " - Heartbeat Started**"; newline; newline;
                         "Heartbeat service activated. Interval: "; interval se; newline ])) ;;
  ret tt.

(** [Start] after the main loop. *)
Definition shutDown (se : StartEnv) : M unit :=
  s <- get_svc ;;
  _ <- attempt (AppendLog (t_stopped se) (log_stopped se) (log_stopped se)
                  (cat [ "**Cycle "; itoa (cycleNumber s); " - Heartbeat Stopped**";
                         newline; newline;
                         "Heartbeat service deactivated."; newline ])) ;;
  ret tt.

(** [Start] *)
Definition Start (se : StartEnv) (events : list Event) : M unit :=
  acquireLock (os_acquire se) ;;;
  deferring (releaseLock (os_release se))
    (startUp se ;;; mainLoop events ;;; shutDown se).

(** [Stop] (the cancellation reaches the loop as [Cancelled]). *)
Definition Stop : M unit := setRunning false.

(* ===================================================================== *)
(** ** Notions the properties are stated with *)
(* ===================================================================== *)


(** A valid mutation command, by the table of the protocol: a known kind
    with its required text fields. *)
Definition isValidCommand (cmd : MemoryCommand.t) : bool :=
  let data := MemoryCommand.Data cmd in
  let kind := MemoryCommand.Command cmd in
  if String.eqb kind "add_observation" || String.eqb kind "add_lesson"
     || String.eqb kind "add_hypothesis"
  then bool_decide (is_Some (as_string (data !! "content")))
  else if String.eqb kind "add_strategy"
  then bool_decide (is_Some (as_string (data !! "name")))
       && bool_decide (is_Some (as_string (data !! "description")))
  else String.eqb kind "prune_old".

(** The four sequences of a knowledge base. *)
Definition sequences (c : Ctx.t)
  : list Observation.t * list Lesson.t * list Hyp.t * list Strategy.t :=
  (Ctx.Observations c, Ctx.Lessons c, Ctx.Hypotheses c, Ctx.Strategies c).

(** The commands decoded from a block, none when it does not decode. *)
Definition commandsOfBlock (block : option string) : list MemoryCommand.t :=
  match block with
  | Some b => default [] (unmarshalCommands b)
  | None => []
  end.

(** The context after the command loop, and the records the loop writes
    (the loop of [executeCommands], without the world). *)
Fixpoint appliedContext (clock : nat -> Time) (cycle : Z) (i : nat) (ctx : Ctx.t)
    (cmds : list MemoryCommand.t) : Ctx.t :=
  match cmds with
  | [] => ctx
  | cmd :: rest =>
      appliedContext clock cycle (S i) (fst (ExecuteMemoryCommand (clock i) ctx cmd cycle)) rest
  end.

Definition commandRecord (now : Time) (cycle : Z) (ctx : Ctx.t) (cmd : MemoryCommand.t)
  : LogRecord :=
  match snd (ExecuteMemoryCommand now ctx cmd cycle) with
  | Err e =>
      LogWarn "Failed to execute memory command"
        [("command", MemoryCommand.Command cmd); ("error", e)]
  | Ok _ => LogInfo ("  ✓ " +:+ MemoryCommand.Command cmd) [("reason", MemoryCommand.Reason cmd)]
  end.

Fixpoint commandRecords (clock : nat -> Time) (cycle : Z) (i : nat) (ctx : Ctx.t)
    (cmds : list MemoryCommand.t) : list LogRecord :=
  match cmds with
  | [] => []
  | cmd :: rest =>
      commandRecord (clock i) cycle ctx cmd
      :: commandRecords clock cycle (S i) (fst (ExecuteMemoryCommand (clock i) ctx cmd cycle)) rest
  end.

(** The disk after [BackupContext], whatever it returns. *)
Definition diskAfterBackup (now : Time) (mkdir write : outcome) (reason : string) (d : Disk)
  : Disk :=
  match contextFile d, mkdir, write with
  | Holds data, Ok _, Ok _ => with_backupDir (<[backupName now reason := data]> (backupDir d)) d
  | _, _, _ => d
  end.

(** The service after [s.cycleNumber++]. *)
Definition bumped (w : World) : World :=
  with_svc (mkService (wrap_int (cycleNumber (svc w) + 1)) (running (svc w))) w.


(* ===================================================================== *)
(** ** Sample worlds and environments, for evaluating the code *)
(* ===================================================================== *)

Definition noon : Time := mkTime 2025 1 15 12 0 0 0 "UTC".
Definition later : Time := mkTime 2025 1 15 12 0 1 0 "UTC".

Definition emptyDisk : Disk := mkDisk Missing Missing Missing "" ∅ Missing.

(** A service that has just started on [d] with cycle number [n]. *)
Definition worldOf (n : Z) (d : Disk) : World := mkWorld (mkService n true) d [].

(** An application whose agent answers [answer] to every prompt. *)
Definition answering (answer : string) : AppInterface :=
  mkApp (fun title => Ok ("session-" +:+ title)) (fun _ _ => Ok answer).

(** An application whose agent call fails. *)
Definition failingApp : AppInterface :=
  mkApp (fun title => Ok ("session-" +:+ title)) (fun _ _ => Err "provider unavailable").

(** A cycle in which every write succeeds. *)
Definition smoothCycle (a : AppInterface) : CycleEnv :=
  mkCycleEnv a noon noon noon (fun _ => noon) noon noon "1s"
    (Ok tt) (Ok tt) (Ok tt) (Ok tt) (Ok tt).

(** The same, with the write of the backup file failing. *)
Definition backupFailingCycle (a : AppInterface) : CycleEnv :=
  mkCycleEnv a noon noon noon (fun _ => noon) noon noon "1s"
    (Ok tt) (Err "no space left on device") (Ok tt) (Ok tt) (Ok tt).

(** The text of a block with one command of kind [kind] whose data has
    the single member [field], with literal [lit]. *)
Definition oneCommand (kind field lit : string) : string :=
  cat [ "[{"; Json.quoted "command"; ":"; Json.quoted kind; ",";
        Json.quoted "reason"; ":"; Json.quoted "test"; ",";
        Json.quoted "data"; ":{"; Json.quoted field; ":"; lit; "}}]" ].

(** An answer that ends with the marker and [block]. *)
Definition answerWith (block : string) : string :=
  cat ["Researched the market."; newline; newline; "MEMORY_COMMANDS:"; newline; block; newline].

Definition observe (text : string) : string :=
  oneCommand "add_observation" "content" (Json.quoted text).

(** A stored knowledge base with one observation. *)
Definition storedContext : Ctx.t :=
  Ctx.mk [Observation.mk "seed" noon 1] [] [] [] (ContextMeta.mk "1.0" noon noon 1).

Definition seededDisk : Disk :=
  mkDisk (Holds (JsonOf storedContext)) Missing Missing "" ∅ Missing.

(** No goals on file. *)
Definition noGoals : Goals.t := Goals.mk [] (GoalsMeta.mk 1 zero_time).

(** The command of the example:
    [{command: add_lesson, data: {content: X, confidence: high}}]. *)
Definition addLessonX : MemoryCommand.t :=
  MemoryCommand.mk "add_lesson" ""
    (<["confidence" := Json.Str "high"]> (<["content" := Json.Str "X"]> ∅)).

Definition addLessonXText : string :=
  cat [ "{"; Json.quoted "command"; ":"; Json.quoted "add_lesson"; ",";
        Json.quoted "data"; ":{"; Json.quoted "content"; ":"; Json.quoted "X"; ",";
        Json.quoted "confidence"; ":"; Json.quoted "high"; "}}" ].

(** A marker left by process 4242, probed alive or dead by a starting
    process 5000. *)
Definition markedDisk : Disk := mkDisk Missing Missing Missing "" ∅ (Holds "4242").
Definition osWhere (alive : bool) : LockEnv :=
  mkLockEnv 5000 (fun pid => alive && (pid =? 4242)) (Ok tt) (Ok tt).


(** A command that gives [content] as a number, and one that gives text. *)
Definition numberContent : MemoryCommand.t :=
  MemoryCommand.mk "add_observation" "test" {[ "content" := Json.Number "42" ]}.
Definition textContent (s : string) : MemoryCommand.t :=
  MemoryCommand.mk "add_observation" "test" {[ "content" := Json.Str s ]}.

(** An answer with two command blocks. *)
Definition twoBlocks : string :=
  cat [ "Done."; newline; "MEMORY_COMMANDS:"; newline; observe "A"; newline;
        "MEMORY_COMMANDS:"; newline; observe "B"; newline ].



(* ===================================================================== *)
(** ** Further notions, for the properties beyond the specification *)
(* ===================================================================== *)

(** The number a string of decimal digits denotes, read left to right
    from [acc]. *)
Fixpoint uintValue (acc : Z) (d : Decimal.uint) : Z :=
  match d with
  | Decimal.Nil => acc
  | Decimal.D0 l => uintValue (acc * 10 + 0) l
  | Decimal.D1 l => uintValue (acc * 10 + 1) l
  | Decimal.D2 l => uintValue (acc * 10 + 2) l
  | Decimal.D3 l => uintValue (acc * 10 + 3) l
  | Decimal.D4 l => uintValue (acc * 10 + 4) l
  | Decimal.D5 l => uintValue (acc * 10 + 5) l
  | Decimal.D6 l => uintValue (acc * 10 + 6) l
  | Decimal.D7 l => uintValue (acc * 10 + 7) l
  | Decimal.D8 l => uintValue (acc * 10 + 8) l
  | Decimal.D9 l => uintValue (acc * 10 + 9) l
  end.

(** A process id, a cycle number: a value of Go's [int]. *)
Definition inIntRange (z : Z) : Prop := int_min <= z <= int_max.

(** The lock environment of process [pid] under probe [alive], with
    removals and writes that go through. *)
Definition lockOf (pid : Z) (alive : Z -> bool) : LockEnv := mkLockEnv pid alive (Ok tt) (Ok tt).

(** The world after process 5000 took the lock in an empty directory. *)
Definition heldBy5000 : World :=
  fst (acquireLock (lockOf 5000 (fun _ => false)) (worldOf 0 emptyDisk)).

(** The cycles the main loop runs on a sequence of events: those before
    the first signal or cancellation. *)
Fixpoint ticksBefore (events : list Event) : list CycleEnv :=
  match events with
  | Tick env :: rest => env :: ticksBefore rest
  | _ => []
  end.

(** A signal or a cancellation. *)
Definition isStop (e : Event) : bool :=
  match e with
  | Tick _ => false
  | _ => true
  end.

(** A start with writes that all go through, by process [pid] under probe
    [alive]. *)
Definition smoothStart (pid : Z) (alive : Z -> bool) : StartEnv :=
  mkStartEnv (lockOf pid alive) (lockOf pid alive) "30m0s" noon noon later (Ok tt) (Ok tt).

(** The number of entries of a knowledge base. *)
Definition entryCount (c : Ctx.t) : nat :=
  (length (Ctx.Observations c) + length (Ctx.Lessons c)
   + length (Ctx.Hypotheses c) + length (Ctx.Strategies c))%nat.

(** A command that adds an entry: valid, and not [prune_old]. *)
Definition addsEntry (cmd : MemoryCommand.t) : bool :=
  isValidCommand cmd && negb (String.eqb (MemoryCommand.Command cmd) "prune_old").

(** The text of the observation a command adds, if it adds one. *)
Definition observationOf (cmd : MemoryCommand.t) : option string :=
  if String.eqb (MemoryCommand.Command cmd) "add_observation"
  then as_string (MemoryCommand.Data cmd !! "content")
  else None.

(** A goal set with two goals, none of them active. *)
Definition pausedGoals : Goals.t :=
  Goals.mk [ GoalRec.mk 1 "Ship the parser" "Finish it" "HIGH" "paused" noon [];
             GoalRec.mk 2 "Write docs" "All of them" "LOW" "completed" noon ["done"] ]
    (GoalsMeta.mk 3 noon).

(** A knowledge base with a validated and a testing hypothesis. *)
Definition twoHypotheses : Ctx.t :=
  Ctx.mk [] [] [Hyp.mk "old idea" noon 1 "validated" []; Hyp.mk "new idea" noon 2 "testing" []]
    [] (ContextMeta.mk "1.0" noon noon 2).

(** Two entries that agree on what the prompt prints of them. *)
Definition sameObservation (a b : Observation.t) : Prop :=
  Observation.Cycle a = Observation.Cycle b /\ Observation.Content a = Observation.Content b.
Definition sameLesson (a b : Lesson.t) : Prop :=
  Lesson.Content a = Lesson.Content b /\ Lesson.Confidence a = Lesson.Confidence b.
Definition sameHypothesis (a b : Hyp.t) : Prop :=
  Hyp.Content a = Hyp.Content b /\ Hyp.Status a = Hyp.Status b.
Definition sameStrategy (a b : Strategy.t) : Prop :=
  Strategy.Name a = Strategy.Name b /\ Strategy.Description a = Strategy.Description b /\
  Strategy.Effectiveness a = Strategy.Effectiveness b.
Definition sameGoal (a b : GoalRec.t) : Prop :=
  GoalRec.Priority a = GoalRec.Priority b /\ GoalRec.Title a = GoalRec.Title b /\
  GoalRec.Description a = GoalRec.Description b /\ GoalRec.Status a = GoalRec.Status b /\
  last (GoalRec.Progress a) = last (GoalRec.Progress b).

(** The stored knowledge base, rewritten in every field the prompt does
    not print. *)
Definition storedContextRestamped : Ctx.t :=
  Ctx.mk [Observation.mk "seed" later 1] [] [] [] (ContextMeta.mk "2.0" later later 77).

(** Whether byte [c] occurs in [s]. *)
Fixpoint occurs (c : ascii) (s : string) : bool :=
  match s with
  | EmptyString => false
  | String a r => Ascii.eqb a c || occurs c r
  end.

(** The bytes [extractSummary] strips from the start of a line. *)
Definition isMark (c : ascii) : bool :=
  Ascii.eqb c "#" || Re.is_space c || Ascii.eqb c "*" || Ascii.eqb c "-".

(** The lines of an answer that still have text after their marks. *)
Definition contentLines (response : string) : list string :=
  filter (fun t => (0 <? String.length t)%nat = true) (map trimMarks (splitLines response)).

(** An answer that opens with a markdown heading. *)
Definition headedAnswer : string :=
  cat ["## Progress"; newline; newline; "- looked at the parser"; newline].

(** The marker of a command block. *)
Definition marker : string := "MEMORY_COMMANDS:".

(** Whether [s] is made of white space ([\s]) only. *)
Fixpoint allSpace (s : string) : bool :=
  match s with
  | EmptyString => true
  | String c r => Re.is_space c && allSpace r
  end.

(** The way a block ends: with the text, or with a line feed. *)
Definition endsBlock (tail after : string) : Prop :=
  (tail = "" /\ after = "") \/ exists t, tail = t +:+ newline.

(** An answer whose block is a JSON array printed over several lines. *)
Definition spreadAnswer : string :=
  cat [ "MEMORY_COMMANDS:"; newline; "[{"; Json.quoted "command"; ":"; Json.quoted "prune_old";
        ","; Json.quoted "data"; ":{"; Json.quoted "ids"; ":[1,2]"; newline; "}}]"; newline ].

(** A clock reading with a four-digit year and two-digit fields, as every
    reading of a real clock has. *)
Definition wellFormedTime (t : Time) : Prop :=
  0 <= year t <= 9999 /\ 0 <= month t <= 99 /\ 0 <= day t <= 99 /\
  0 <= hour t <= 99 /\ 0 <= minute t <= 99 /\ 0 <= second t <= 99.

(* ===================================================================== *)
(** ** adapter.go: the application behind [AppInterface] *)
(* ===================================================================== *)

Module Adapter.

(** An event of the agent's run, as the adapter looks at it: whether its
    type is [AgentEventTypeResponse], the text of its message, its [Done]
    flag and its [Error]. *)
Record AgentEvent : Type := mkEvent {
  isResponse : bool;
  messageText : string;
  isDone : bool;
  failure : option string
}.

(** What the adapter writes to its logger. *)
Inductive LogLine : Type :=
| DebugCompleted
| ErrorAgent (e : string).

(** [AppAdapter]: the response gathered so far, and the log. *)
Record AppAdapter : Type := mkAdapter {
  lastResponse : string;
  logged : list LogLine
}.

(** [NewAppAdapter] *)
Definition NewAppAdapter : AppAdapter := mkAdapter "" [].

(** The body of the loop over the events of a run. *)
Definition handle (a : AppAdapter) (event : AgentEvent) : AppAdapter :=
  let a1 :=
    if isResponse event then mkAdapter (lastResponse a +:+ messageText event) (logged a) else a in
  let a2 :=
    if isDone event then mkAdapter (lastResponse a1) (logged a1 ++ [DebugCompleted]) else a1 in
  match failure event with
  | Some e => mkAdapter (lastResponse a2) (logged a2 ++ [ErrorAgent e])
  | None => a2
  end.

(** [CoderAgentRun] up to the closing of the [done] channel: [run] is
    what [CoderAgent.Run] returns, the events of a run that ends or the
    error of the call. *)
Definition CoderAgentRun (a : AppAdapter) (run : result (list AgentEvent))
  : AppAdapter * outcome :=
  match run with
  | Err e => (a, Err e)
  | Ok events => (fold_left handle events a, Ok tt)
  end.

(** [CoderAgentGetLastResponse]: hands the response over and clears it. *)
Definition CoderAgentGetLastResponse (a : AppAdapter) : AppAdapter * string :=
  (mkAdapter "" (logged a), lastResponse a).

(** The texts of the response events of a run, in order. *)
Definition responseTexts (events : list AgentEvent) : list string :=
  map messageText (filter (fun ev => isResponse ev = true) events).

End Adapter.

(* ===================================================================== *)
(** ** Strings *)
(* ===================================================================== *)

Section Strings.

Lemma append_cons (x : ascii) (a b : string) : String x a +:+ b = String x (a +:+ b).
Proof. reflexivity. Qed.

Lemma append_assoc (a b c : string) : (a +:+ b) +:+ c = a +:+ (b +:+ c).
Proof. induction a as [|x a IH]; [reflexivity | rewrite !append_cons; f_equal; exact IH]. Qed.

Lemma length_append (a b : string) :
  String.length (a +:+ b) = (String.length a + String.length b)%nat.
Proof.
  induction a as [|x a IH]; [reflexivity |].
  rewrite append_cons. simpl. now rewrite IH.
Qed.

Lemma append_inv_head (a x y : string) : a +:+ x = a +:+ y -> x = y.
Proof.
  induction a as [|c a IH]; intros H; [exact H |].
  rewrite !append_cons in H. injection H as H. auto.
Qed.

(** Two texts of one length followed by a common text. *)
Lemma append_inv_tail (x y r : string) : x +:+ r = y +:+ r -> x = y.
Proof.
  revert y. induction x as [|c x IH]; intros [|d y] H.
  - reflexivity.
  - apply (f_equal String.length) in H. rewrite !length_append in H. simpl in H. lia.
  - apply (f_equal String.length) in H. rewrite !length_append in H. simpl in H. lia.
  - rewrite !append_cons in H. injection H as -> H. f_equal. auto.
Qed.

Lemma cat_cons (p : string) (ps : list string) : cat (p :: ps) = p +:+ cat ps.
Proof. reflexivity. Qed.

End Strings.

(* ===================================================================== *)
(** ** C9 and C10: one command on an empty context; loading without a file *)
(* ===================================================================== *)

(** C9.  The block text of the example decodes to the [add_lesson]
    command with content X and confidence high, and executing that
    command on an empty knowledge base at cycle 3 returns no error and
    leaves exactly one lesson, with content X, confidence high and cycle 3
    (stamped with the time of the call); the other three sequences stay
    empty. *)
Theorem add_lesson_on_empty_context (created now : Time) :
  unmarshalCommands ("[" +:+ addLessonXText +:+ "]") = Some [addLessonX] /\
  ExecuteMemoryCommand now (createEmptyContext created) addLessonX 3
  = (Ctx.mk [] [Lesson.mk "X" now 3 "high"] [] [] (ContextMeta.mk "1.0" created created 0),
     Ok tt).
Proof. split; vm_compute; reflexivity. Qed.

(** C10.  Without a context file, [LoadContext] returns no error and a
    fresh context: four empty sequences, version 1.0, [total_cycles] 0;
    the world is untouched.  It returns an error exactly when the file is
    there and cannot be read or cannot be parsed. *)
Theorem load_context_without_file (now : Time) (w : World) :
  (contextFile (disk w) = Missing ->
     LoadContext now w = (w, Ok (createEmptyContext now))) /\
  sequences (createEmptyContext now) = ([], [], [], []) /\
  ContextMeta.Version (Ctx.Metadata (createEmptyContext now)) = "1.0" /\
  ContextMeta.TotalCycles (Ctx.Metadata (createEmptyContext now)) = 0 /\
  (is_ok (snd (LoadContext now w)) = false <->
     (exists why, contextFile (disk w) = Unreadable why) \/
     (exists raw why, contextFile (disk w) = Holds (Malformed raw why))).
Proof.
  unfold LoadContext, bind, get_disk, ret, fail.
  repeat split; try reflexivity.
  - intros ->. reflexivity.
  - destruct (contextFile (disk w)) as [|why|[c|raw why]]; simpl; intros H;
      try discriminate; eauto.
  - intros [[why ->]|[raw [why ->]]]; reflexivity.
Qed.

Lemma load_context_without_file_witness :
  LoadContext noon (worldOf 0 emptyDisk) = (worldOf 0 emptyDisk, Ok (createEmptyContext noon)) /\
  is_ok (snd (LoadContext noon (worldOf 0 (with_contextFile (Unreadable "permission denied")
                                             emptyDisk)))) = false.
Proof.
  split.
  - apply (proj1 (load_context_without_file noon (worldOf 0 emptyDisk))). reflexivity.
  - apply (proj2 (proj2 (proj2 (proj2
             (load_context_without_file noon
                (worldOf 0 (with_contextFile (Unreadable "permission denied") emptyDisk))))))).
    left. eexists. reflexivity.
Defined.

(* ===================================================================== *)
(** ** C7: the single-instance lock *)
(* ===================================================================== *)



(** Acquiring twice: process 5000 takes the lock in an empty directory;
    while it is alive process 6000 is refused, and once it is gone
    process 6000 takes the lock over. *)
Example second_acquire_waits_for_first_holder :
  let held := fst (acquireLock (mkLockEnv 5000 (fun _ => false) (Ok tt) (Ok tt))
                     (worldOf 0 emptyDisk)) in
  pidFile (disk held) = Holds "5000" /\
  snd (acquireLock (mkLockEnv 6000 (fun pid => pid =? 5000) (Ok tt) (Ok tt)) held)
  = Err "heartbeat already running with PID 5000" /\
  pidFile (disk (fst (acquireLock (mkLockEnv 6000 (fun _ => false) (Ok tt) (Ok tt)) held)))
  = Holds "6000".
Proof. vm_compute. repeat split. Qed.

(* ===================================================================== *)
(** ** C4: what the prompt is a function of *)
(* ===================================================================== *)

(** C4, as the specification states it, fails on the code:
    [BuildUserPrompt] reads the clock for the header of the prompt.  Two
    calls with the same knowledge base, goals, mission and cycle number,
    one second apart, give two different prompts. *)
Lemma prompt_depends_on_clock :
  BuildUserPrompt noon storedContext noGoals "mission" 2
  <> BuildUserPrompt later storedContext noGoals "mission" 2.
Proof. intros H. vm_compute in H. discriminate H. Qed.

(** C4 (amended).  The prompt is a function of the knowledge base, the
    goal set, the cycle number and the reading of the clock at the call
    (the mission text is not used): two calls with the same knowledge
    base, goals and cycle number give the same text exactly when their
    clock readings print alike in the header. *)
Theorem prompt_function_of_state_and_clock
    (t1 t2 : Time) (ctx : Ctx.t) (goals : Goals.t) (mission1 mission2 : string) (n : Z) :
  BuildUserPrompt t1 ctx goals mission1 n = BuildUserPrompt t2 ctx goals mission2 n
  <-> format_log t1 = format_log t2.
Proof.
  unfold BuildUserPrompt, promptHead. rewrite !cat_cons, !append_assoc. split.
  - intros H. do 5 apply append_inv_head in H. now apply append_inv_tail in H.
  - intros ->. reflexivity.
Qed.

Lemma prompt_function_of_state_and_clock_witness :
  BuildUserPrompt noon storedContext noGoals "mission" 2
  = BuildUserPrompt noon storedContext noGoals "another mission" 2.
Proof.
  apply (proj2 (prompt_function_of_state_and_clock noon noon storedContext noGoals
                  "mission" "another mission" 2)).
  reflexivity.
Defined.

(* ===================================================================== *)
(** ** The most recent observations *)
(* ===================================================================== *)

Lemma recentObservations_drop (obs : list Observation.t) :
  recentObservations obs = drop (length obs - 5) obs.
Proof.
  unfold recentObservations. f_equal.
  destruct (Z.ltb_spec (Z.of_nat (length obs) - 5) 0); lia.
Qed.


(* ===================================================================== *)
(** ** The steps of a cycle *)
(* ===================================================================== *)

Section Cycle.

Variable env : CycleEnv.

Lemma nextCycleNumber_run (w : World) :
  nextCycleNumber w = (bumped w, Ok (wrap_int (cycleNumber (svc w) + 1))).
Proof. reflexivity. Qed.

(** The first part of a cycle changes the cycle number and nothing else;
    when it returns, the context is the one a load of the disk gives. *)
Lemma loadAndDelegate_run (w w1 : World) (r : result (Z * Ctx.t * string)) :
  loadAndDelegate env w = (w1, r) ->
  w1 = bumped w /\
  forall n ctx response, r = Ok (n, ctx, response) ->
    n = wrap_int (cycleNumber (svc w) + 1) /\
    LoadContext (t_load env) w = (w, Ok ctx).
Proof.
  unfold loadAndDelegate.
  unfold bind at 1. rewrite nextCycleNumber_run.
  unfold wrapping, LoadContext, LoadGoals, LoadMission, lift, bind, get_disk, ret, fail.
  change (disk (bumped w)) with (disk w).
  destruct (contextFile (disk w)) as [|why|[c|raw why]]; simpl;
    try (intros [= <- <-]; split; [reflexivity | discriminate]);
  (destruct (goalsFile (disk w)) as [|gwhy|[g|graw gwhy]]; simpl;
    try (intros [= <- <-]; split; [reflexivity | discriminate]));
  (destruct (missionFile (disk w)) as [|mwhy|m]; simpl;
    try (intros [= <- <-]; split; [reflexivity | discriminate]));
  (destruct (SessionsCreate (app env) _) as [sid|e1]; simpl;
    try (intros [= <- <-]; split; [reflexivity | discriminate]));
  (destruct (CoderAgentRun (app env) _ _) as [resp|e2]; simpl;
    try (intros [= <- <-]; split; [reflexivity | discriminate]));
  intros [= <- <-]; (split; [reflexivity |]); intros n ctx response [= <- <- <-];
    split; reflexivity.
Qed.

Lemma parseMemoryCommands_run (response : string) (w : World) :
  exists w', parseMemoryCommands response w = (w', Ok (commandsOfBlock (firstBlock response))) /\
             svc w' = svc w /\ disk w' = disk w.
Proof.
  unfold parseMemoryCommands, commandsOfBlock.
  destruct (firstBlock response) as [block|]; [| exists w; auto].
  destruct (unmarshalCommands block) as [cmds|]; simpl.
  - exists w; auto.
  - eexists. split; [reflexivity |]. auto.
Qed.

Lemma executeCommands_run (clock : nat -> Time) (cycle : Z) (cmds : list MemoryCommand.t) :
  forall (i : nat) (ctx : Ctx.t) (w : World),
    executeCommands clock cycle i ctx cmds w
    = (with_slog (slog w ++ commandRecords clock cycle i ctx cmds) w,
       Ok (appliedContext clock cycle i ctx cmds)).
Proof.
  induction cmds as [|cmd rest IH]; intros i ctx w; simpl.
  - unfold ret. rewrite app_nil_r. destruct w; reflexivity.
  - unfold commandRecord.
    destruct (ExecuteMemoryCommand (clock i) ctx cmd cycle) as [ctx' [[]|e]]; simpl;
      unfold bind, emit; rewrite IH; simpl; rewrite <- app_assoc; reflexivity.
Qed.

Lemma BackupContext_run (now : Time) (mkdir write : outcome) (reason : string) (w : World) :
  exists r, BackupContext now mkdir write reason w
            = (with_disk (diskAfterBackup now mkdir write reason (disk w)) w, r).
Proof.
  unfold BackupContext, diskAfterBackup, bind, get_disk, put_disk, ret, fail.
  destruct w as [s d l]; simpl.
  destruct (contextFile d) as [|why|data]; simpl.
  - eexists; reflexivity.
  - destruct mkdir as [[]|e]; eexists; reflexivity.
  - destruct mkdir as [[]|e]; [destruct write as [[]|e] |]; eexists; reflexivity.
Qed.

(** The middle part of a cycle never fails.  Without commands it changes
    nothing but the log records; with commands the backup is attempted
    and the loop runs. *)
Lemma applyCommands_run (n : Z) (ctx : Ctx.t) (response : string) (w : World) :
  let cmds := commandsOfBlock (firstBlock response) in
  exists w',
    applyCommands env n ctx response w
    = (w', Ok (appliedContext (t_command env) n 0 ctx cmds, length cmds)) /\
    svc w' = svc w /\
    disk w' = match cmds with
              | [] => disk w
              | _ => diskAfterBackup (t_backup env) (backup_mkdir env) (backup_write env)
                       ("cycle_" +:+ itoa n) (disk w)
              end.
Proof.
  intros cmds. unfold applyCommands. unfold bind at 1.
  destruct (parseMemoryCommands_run response w) as [w0 [-> [Hs Hd]]].
  fold cmds. destruct cmds as [|c cs] eqn:E.
  - exists w0. auto.
  - rewrite <- E. unfold bind, emit, attempt.
    set (w1 := with_slog _ w0).
    destruct (BackupContext_run (t_backup env) (backup_mkdir env) (backup_write env)
                ("cycle_" +:+ itoa n) w1) as [r ->].
    rewrite executeCommands_run. unfold ret. eexists. split; [reflexivity |].
    simpl. rewrite Hs, Hd. auto.
Qed.

(** The last part of a cycle fails exactly when the write of the context
    fails, and then leaves the world as it was. *)
Lemma persistAndLog_run (n : Z) (ctx : Ctx.t) (response : string) (count : nat) (w : World) :
  match save_write env with
  | Err e =>
      persistAndLog env n ctx response count w
      = (w, Err ("failed to save context: " +:+ ("failed to write context file: " +:+ e)))
  | Ok _ =>
      exists w', persistAndLog env n ctx response count w = (w', Ok tt) /\
        svc w' = svc w /\
        contextFile (disk w')
        = Holds (JsonOf (Ctx.set_UpdatedAt (t_save env) (Ctx.set_TotalCycles n ctx))) /\
        backupDir (disk w') = backupDir (disk w) /\
        pidFile (disk w') = pidFile (disk w)
  end.
Proof.
  unfold persistAndLog, SaveContext, AppendLog, wrapping, attempt, bind, get_disk, put_disk,
    emit, ret, fail.
  destruct (save_write env) as [[]|e]; simpl; [| reflexivity].
  destruct (log_open env) as [[]|e1]; [destruct (log_write env) as [[]|e2] |]; simpl;
    eexists; (split; [reflexivity |]); simpl; auto.
Qed.

End Cycle.

(** The disk a cycle leaves behind its command processing. *)
Lemma diskAfterBackup_files (now : Time) (mkdir write : outcome) (reason : string) (d : Disk) :
  contextFile (diskAfterBackup now mkdir write reason d) = contextFile d /\
  pidFile (diskAfterBackup now mkdir write reason d) = pidFile d.
Proof.
  unfold diskAfterBackup.
  destruct (contextFile d) eqn:E, mkdir as [[]|?], write as [[]|?]; simpl; auto.
Qed.

(** What a cycle does, read off its three parts. *)
Lemma runCycle_inv (env : CycleEnv) (w w' : World) (r : outcome) :
  runCycle env w = (w', r) ->
  svc w' = svc (bumped w) /\
  pidFile (disk w') = pidFile (disk w) /\
  ((exists e, loadAndDelegate env w = (bumped w, Err e) /\ r = Err e /\ disk w' = disk w)
   \/
   (exists n ctx response,
      loadAndDelegate env w = (bumped w, Ok (n, ctx, response)) /\
      let cmds := commandsOfBlock (firstBlock response) in
      backupDir (disk w')
      = backupDir (match cmds with
                   | [] => disk w
                   | _ => diskAfterBackup (t_backup env) (backup_mkdir env) (backup_write env)
                            ("cycle_" +:+ itoa n) (disk w)
                   end) /\
      match save_write env with
      | Err e =>
          r = Err ("failed to save context: " +:+ ("failed to write context file: " +:+ e)) /\
          contextFile (disk w') = contextFile (disk w)
      | Ok _ =>
          r = Ok tt /\
          contextFile (disk w')
          = Holds (JsonOf (Ctx.set_UpdatedAt (t_save env)
                             (Ctx.set_TotalCycles n
                                (appliedContext (t_command env) n 0 ctx cmds))))
      end)).
Proof.
  unfold runCycle. unfold bind at 1.
  destruct (loadAndDelegate env w) as [w1 r1] eqn:L.
  destruct (loadAndDelegate_run env w w1 r1 L) as [-> _].
  destruct r1 as [[[n ctx] response]|e].
  - unfold bind at 1.
    destruct (applyCommands_run env n ctx response (bumped w)) as [w2 [-> [Hs Hd]]].
    pose proof (persistAndLog_run env n
                  (appliedContext (t_command env) n 0 ctx (commandsOfBlock (firstBlock response)))
                  response (length (commandsOfBlock (firstBlock response))) w2) as P.
    change (disk (bumped w)) with (disk w) in Hd.
    assert (Hc : contextFile (disk w2) = contextFile (disk w) /\
                 pidFile (disk w2) = pidFile (disk w)).
    { rewrite Hd. destruct (commandsOfBlock (firstBlock response)); [auto |].
      apply diskAfterBackup_files. }
    destruct Hc as [Hc Hp].
    destruct (save_write env) as [[]|e] eqn:S.
    + destruct P as [w3 [-> [Hs3 [Hc3 [Hb3 Hp3]]]]]. intros [= <- <-].
      split; [congruence |]. split; [congruence |].
      right. exists n, ctx, response. split; [reflexivity |]. simpl.
      split; [rewrite Hb3, Hd; reflexivity |]. auto.
    + rewrite P. intros [= <- <-].
      split; [congruence |]. split; [congruence |].
      right. exists n, ctx, response. split; [reflexivity |]. simpl.
      split; [rewrite Hd; reflexivity |]. auto.
  - intros [= <- <-]. split; [reflexivity |]. split; [reflexivity |].
    left. exists e. auto.
Qed.

(* ===================================================================== *)
(** ** C1: the persisted cycle counter *)
(* ===================================================================== *)


Lemma tick_run (env : CycleEnv) (w w1 : World) (r : result outcome) :
  tick env w = (w1, r) ->
  exists w' r', runCycle env w = (w', r') /\ r = Ok r' /\ svc w1 = svc w' /\ disk w1 = disk w'.
Proof.
  unfold tick, attempt, bind. destruct (runCycle env w) as [w' r'] eqn:R.
  destruct r' as [[]|e]; simpl; intros [= <- <-]; eexists; eexists; eauto.
Qed.

(** The ticks of the main loop are the cycles of [runCycles]. *)
Lemma mainLoop_ticks (envs : list CycleEnv) :
  forall w : World, mainLoop (map Tick envs) w = (fst (runCycles envs w), Ok tt).
Proof.
  induction envs as [|env rest IH]; intros w; simpl; [reflexivity |].
  unfold bind. destruct (tick env w) as [w1 r1] eqn:T.
  destruct (tick_run env w w1 r1 T) as [w0 [r0 [_ [-> _]]]].
  rewrite IH. destruct (runCycles rest w1). reflexivity.
Qed.







(* ===================================================================== *)
(** ** C5: commands that do not validate *)
(* ===================================================================== *)

Lemma as_string_is_Some (v : option Json.value) :
  bool_decide (is_Some (as_string v)) = match as_string v with Some _ => true | None => false end.
Proof.
  destruct (as_string v); [apply bool_decide_eq_true; eauto |].
  apply bool_decide_eq_false. intros [x Hx]. discriminate.
Qed.

(** [ExecuteMemoryCommand] returns an error exactly on the commands the
    protocol table rejects, and then leaves the context as it was. *)
Lemma ExecuteMemoryCommand_valid (now : Time) (ctx : Ctx.t) (cmd : MemoryCommand.t) (cycle : Z) :
  is_ok (snd (ExecuteMemoryCommand now ctx cmd cycle)) = isValidCommand cmd /\
  (isValidCommand cmd = false -> fst (ExecuteMemoryCommand now ctx cmd cycle) = ctx).
Proof.
  unfold ExecuteMemoryCommand, isValidCommand. rewrite !as_string_is_Some.
  destruct (String.eqb (MemoryCommand.Command cmd) "add_observation"); simpl.
  { destruct (as_string (MemoryCommand.Data cmd !! "content")); simpl; (split; [reflexivity | intros; congruence]). }
  destruct (String.eqb (MemoryCommand.Command cmd) "add_lesson"); simpl.
  { destruct (as_string (MemoryCommand.Data cmd !! "content")); simpl; (split; [reflexivity | intros; congruence]). }
  destruct (String.eqb (MemoryCommand.Command cmd) "add_hypothesis"); simpl.
  { destruct (as_string (MemoryCommand.Data cmd !! "content")); simpl; (split; [reflexivity | intros; congruence]). }
  destruct (String.eqb (MemoryCommand.Command cmd) "add_strategy"); simpl.
  { destruct (as_string (MemoryCommand.Data cmd !! "name")),
      (as_string (MemoryCommand.Data cmd !! "description")); simpl; (split; [reflexivity | intros; congruence]). }
  destruct (String.eqb (MemoryCommand.Command cmd) "prune_old"); simpl;
    (split; [reflexivity | intros; congruence]).
Qed.

Lemma ExecuteMemoryCommand_invalid (now : Time) (ctx : Ctx.t) (cmd : MemoryCommand.t) (cycle : Z) :
  isValidCommand cmd = false ->
  exists e, ExecuteMemoryCommand now ctx cmd cycle = (ctx, Err e).
Proof.
  intros H. destruct (ExecuteMemoryCommand_valid now ctx cmd cycle) as [H1 H2].
  rewrite H in H1. specialize (H2 H).
  destruct (ExecuteMemoryCommand now ctx cmd cycle) as [c [[]|e]]; simpl in *;
    [discriminate | subst; eauto].
Qed.

Lemma appliedContext_app (clock : nat -> Time) (cycle : Z) (pre post : list MemoryCommand.t) :
  forall (i : nat) (ctx : Ctx.t),
    appliedContext clock cycle i ctx (pre ++ post)
    = appliedContext clock cycle (i + length pre) (appliedContext clock cycle i ctx pre) post.
Proof.
  induction pre as [|c pre IH]; intros i ctx; simpl.
  - now rewrite Nat.add_0_r.
  - rewrite IH. f_equal. lia.
Qed.

Lemma commandRecords_app (clock : nat -> Time) (cycle : Z) (pre post : list MemoryCommand.t) :
  forall (i : nat) (ctx : Ctx.t),
    commandRecords clock cycle i ctx (pre ++ post)
    = (commandRecords clock cycle i ctx pre
       ++ commandRecords clock cycle (i + length pre) (appliedContext clock cycle i ctx pre) post)%list.
Proof.
  induction pre as [|c pre IH]; intros i ctx; simpl.
  - now rewrite Nat.add_0_r.
  - rewrite IH. do 3 f_equal. lia.
Qed.

(** A cycle whose loads, delegation and save go through returns no error,
    whatever its commands are. *)
Lemma runCycle_succeeds (env : CycleEnv) (w : World) :
  is_ok (snd (loadAndDelegate env w)) = true ->
  is_ok (save_write env) = true ->
  snd (runCycle env w) = Ok tt.
Proof.
  intros HL HS. destruct (runCycle env w) as [w' r] eqn:R.
  destruct (runCycle_inv env w w' r R) as [_ [_ [[e [L _]] | [n [ctx [resp [_ [_ H]]]]]]]].
  - rewrite L in HL. discriminate.
  - destruct (save_write env); [destruct H as [-> _]; reflexivity | discriminate].
Qed.

(** C5.  A command of unknown kind, or without a required text field
    (absent, or not a string), returns an error and leaves the knowledge
    base as it was; in the loop over a block it is reported by a warning
    and the commands after it are executed on the context the commands
    before it produced; and the cycle returns no error because of it. *)
Theorem invalid_command_is_skipped (bad : MemoryCommand.t) :
  isValidCommand bad = false ->
  (forall now ctx cycle, exists e, ExecuteMemoryCommand now ctx bad cycle = (ctx, Err e)) /\
  (forall clock cycle i ctx pre post w,
     exists e w1 ctx1,
       executeCommands clock cycle i ctx pre w = (w1, Ok ctx1) /\
       executeCommands clock cycle i ctx (pre ++ bad :: post) w
       = executeCommands clock cycle (S (i + length pre)) ctx1 post
           (with_slog (slog w1 ++ [LogWarn "Failed to execute memory command"
                                     [("command", MemoryCommand.Command bad); ("error", e)]])
              w1)) /\
  (forall env w,
     is_ok (snd (loadAndDelegate env w)) = true -> is_ok (save_write env) = true ->
     snd (runCycle env w) = Ok tt).
Proof.
  intros Hbad. split; [| split].
  - intros now ctx cycle. now apply ExecuteMemoryCommand_invalid.
  - intros clock cycle i ctx pre post w.
    destruct (ExecuteMemoryCommand_invalid (clock (i + length pre)%nat)
                (appliedContext clock cycle i ctx pre) bad cycle Hbad) as [e He].
    exists e. eexists. eexists. split; [apply executeCommands_run |].
    rewrite !executeCommands_run, appliedContext_app, commandRecords_app. simpl.
    unfold commandRecord. rewrite He. simpl.
    destruct w as [s d l]. unfold with_slog. simpl.
    rewrite <- !app_assoc. reflexivity.
  - intros env w. apply runCycle_succeeds.
Qed.

Lemma invalid_command_is_skipped_witness :
  unmarshalCommands (oneCommand "add_observation" "content" "42") = Some [numberContent] /\
  (exists e, ExecuteMemoryCommand noon storedContext numberContent 2 = (storedContext, Err e)) /\
  map Observation.Content
    (Ctx.Observations
       (appliedContext (fun _ => noon) 2 0 storedContext
          [textContent "A"; numberContent; textContent "B"]))
  = ["seed"; "A"; "B"] /\
  snd (runCycle (smoothCycle (answering (answerWith (oneCommand "add_observation" "content" "42"))))
         (worldOf 1 seededDisk)) = Ok tt.
Proof.
  pose proof (invalid_command_is_skipped numberContent eq_refl) as [H1 [_ H3]].
  split; [vm_compute; reflexivity |].
  split; [apply H1 |].
  split; [vm_compute; reflexivity |].
  apply H3; reflexivity.
Defined.

(* ===================================================================== *)
(** ** C2 and C8: the backup before the command loop *)
(* ===================================================================== *)




(** C8.  The specification asks for the save to be aborted; the code
    does not do it: [runCycle] drops the error [BackupContext]
    returns.  Here the write of the backup fails; the cycle goes on,
    returns no error, and overwrites the context file with the mutated
    knowledge base while no backup exists. *)
Theorem save_proceeds_after_failed_backup :
  let env := backupFailingCycle (answering (answerWith (observe "A"))) in
  let w := worldOf 1 seededDisk in
  snd (BackupContext (t_backup env) (backup_mkdir env) (backup_write env) "cycle_2" w)
  = Err "failed to write backup: no space left on device" /\
  snd (runCycle env w) = Ok tt /\
  backupDir (disk (fst (runCycle env w))) = ∅ /\
  contextFile (disk w) = Holds (JsonOf storedContext) /\
  exists saved,
    contextFile (disk (fst (runCycle env w))) = Holds (JsonOf saved) /\
    map Observation.Content (Ctx.Observations storedContext) = ["seed"] /\
    map Observation.Content (Ctx.Observations saved) = ["seed"; "A"].
Proof.
  vm_compute. repeat split. eexists. repeat split.
Qed.

(* ===================================================================== *)
(** ** C3: which block is extracted *)
(* ===================================================================== *)





(* ===================================================================== *)
(** ** C6: the observations in the prompt *)
(* ===================================================================== *)





(* ===================================================================== *)
(** ** More on strings *)
(* ===================================================================== *)

Lemma append_empty_r (a : string) : a +:+ "" = a.
Proof. induction a as [|x a IH]; [reflexivity | rewrite append_cons; f_equal; exact IH]. Qed.

(* ===================================================================== *)
(** ** The marker of the lock: written with [%d], read with [%d] *)
(* ===================================================================== *)

Lemma of_uint_acc_value (d : Decimal.uint) :
  forall acc : positive, Zpos (Pos.of_uint_acc d acc) = uintValue (Zpos acc) d.
Proof.
  induction d; intros acc; simpl; try reflexivity; rewrite IHd; f_equal; lia.
Qed.

Lemma of_uint_value (d : Decimal.uint) : Z.of_N (Pos.of_uint d) = uintValue 0 d.
Proof.
  induction d; simpl; try reflexivity; try exact IHd; apply of_uint_acc_value.
Qed.

Lemma to_uint_value (p : positive) : uintValue 0 (Pos.to_uint p) = Zpos p.
Proof. rewrite <- of_uint_value, DecimalPos.Unsigned.of_to. reflexivity. Qed.

Lemma scanToken_digit (c : ascii) (r : string) :
  is_digit c = true -> scanToken (String c r) = String c (scanToken r).
Proof. intros H. simpl. rewrite H. reflexivity. Qed.

Lemma decimal_digit (acc : Z) (c : ascii) (r : string) :
  is_digit c = true -> decimal acc (String c r) = decimal (acc * 10 + digit_val c) r.
Proof. intros H. simpl. rewrite H. reflexivity. Qed.

(** The digits [%d] prints are the token [%d] scans, with their value. *)
Lemma scan_printed_digits (d : Decimal.uint) :
  forall acc : Z,
    scanToken (NilEmpty.string_of_uint d) = NilEmpty.string_of_uint d /\
    decimal acc (NilEmpty.string_of_uint d) = Some (uintValue acc d).
Proof.
  induction d; intros acc; [split; reflexivity | ..];
    simpl NilEmpty.string_of_uint;
    rewrite scanToken_digit, decimal_digit by reflexivity;
    match goal with
    | |- context [uintValue _ (_ d)] => simpl uintValue
    end;
    match goal with
    | |- context [uintValue (acc * 10 + ?k) d] => destruct (IHd (acc * 10 + k)) as [E1 E2]
    end; (split; [f_equal; exact E1 | exact E2]).
Qed.

Lemma scanInt_unsigned (c : ascii) (r : string) :
  is_digit c = true ->
  scanInt (String c r)
  = match decimal 0 (scanToken (String c r)) with
    | Some v => if (int_min <=? v) && (v <=? int_max) then v else 0
    | None => 0
    end.
Proof.
  destruct c as [[] [] [] [] [] [] [] []]; intros H; try discriminate H; reflexivity.
Qed.

Lemma scanInt_negative (c : ascii) (r : string) :
  is_digit c = true ->
  scanInt (String "-" (String c r))
  = match decimal 0 (scanToken (String c r)) with
    | Some v => if (int_min <=? - v) && (- v <=? int_max) then - v else 0
    | None => 0
    end.
Proof.
  destruct c as [[] [] [] [] [] [] [] []]; intros H; try discriminate H; reflexivity.
Qed.

Lemma printed_digits_nonempty (p : positive) :
  exists c r, NilEmpty.string_of_uint (Pos.to_uint p) = String c r /\ is_digit c = true /\
              NilZero.string_of_uint (Pos.to_uint p) = String c r.
Proof.
  pose proof (DecimalPos.Unsigned.to_uint_nonnil p) as N.
  destruct (Pos.to_uint p); [contradiction | ..]; simpl; eexists; eexists; repeat split.
Qed.

Lemma in_range_check (z : Z) : inIntRange z -> (int_min <=? z) && (z <=? int_max) = true.
Proof.
  intros [H1 H2]. apply andb_true_intro. split; apply Z.leb_le; assumption.
Qed.

(** What [fmt.Sprintf("%d", z)] writes, [fmt.Sscanf(_, "%d", _)] reads
    back, for every [int]. *)
Lemma scanInt_itoa (z : Z) : inIntRange z -> scanInt (itoa z) = z.
Proof.
  intros R. destruct z as [|p|p].
  - reflexivity.
  - unfold itoa. simpl Z.to_int. simpl NilZero.string_of_int.
    destruct (printed_digits_nonempty p) as [c [r [E [D ->]]]].
    rewrite scanInt_unsigned by exact D. rewrite <- E.
    destruct (scan_printed_digits (Pos.to_uint p) 0) as [-> ->].
    rewrite to_uint_value, in_range_check by exact R. reflexivity.
  - unfold itoa. simpl Z.to_int. simpl NilZero.string_of_int.
    destruct (printed_digits_nonempty p) as [c [r [E [D ->]]]].
    rewrite scanInt_negative by exact D. rewrite <- E.
    destruct (scan_printed_digits (Pos.to_uint p) 0) as [-> ->].
    rewrite to_uint_value. change (- Z.pos p) with (Z.neg p).
    rewrite in_range_check by exact R. reflexivity.
Qed.

Lemma itoa_inj (a b : Z) : inIntRange a -> inIntRange b -> itoa a = itoa b -> a = b.
Proof.
  intros Ha Hb E. rewrite <- (scanInt_itoa a Ha), <- (scanInt_itoa b Hb), E. reflexivity.
Qed.

Lemma scanInt_in_range (data : string) : inIntRange (scanInt data).
Proof.
  assert (Z0 : inIntRange 0) by (unfold inIntRange, int_min, int_max; lia).
  unfold scanInt. destruct (scanBlanks data) as [s|]; [| exact Z0].
  destruct (match s with
            | EmptyString => (false, s)
            | String c r =>
                if Ascii.eqb c "-" then (true, r)
                else if Ascii.eqb c "+" then (false, r) else (false, s)
            end) as [negative s'].
  destruct (scanToken s') as [|c tok]; [exact Z0 |].
  destruct (decimal 0 (String c tok)) as [v|]; [| exact Z0].
  destruct ((int_min <=? (if negative then - v else v))
            && ((if negative then - v else v) <=? int_max)) eqn:E; [| exact Z0].
  apply andb_prop in E. destruct E as [E1 E2].
  apply Z.leb_le in E1, E2. split; assumption.
Qed.

(** What a successful [acquireLock] leaves: the marker of the caller, and
    every other file as it was. *)
Lemma acquireLock_ok (os : LockEnv) (w w1 : World) :
  acquireLock os w = (w1, Ok tt) ->
  disk w1 = with_pidFile (Holds (itoa (getpid os))) (disk w) /\ svc w1 = svc w.
Proof.
  unfold acquireLock, removePidFile, emit, bind, get_disk, put_disk, ret, fail.
  destruct w as [s d l]; simpl.
  destruct (pidFile d) as [|why|data]; simpl.
  - destruct (pid_write os) as [[]|e]; simpl; intros [= <-]; simpl; destruct d; auto.
  - destruct (pid_write os) as [[]|e]; simpl; intros [= <-]; simpl; destruct d; auto.
  - destruct (probe os (scanInt data)); simpl; [discriminate |].
    destruct (pid_remove os) as [[]|e']; simpl;
      destruct (pid_write os) as [[]|e]; simpl; intros [= <-]; simpl; destruct d; auto.
Qed.

(** X1.  The marker a process wrote is removed by its own [releaseLock]
    (the removal going through) and by no other process: a release by
    another process leaves the whole world, marker included, as it was. *)
Theorem release_only_by_holder (os os' : LockEnv) (w w1 : World) :
  acquireLock os w = (w1, Ok tt) ->
  inIntRange (getpid os) -> inIntRange (getpid os') ->
  (getpid os' = getpid os -> pid_remove os' = Ok tt ->
     exists w2, releaseLock os' w1 = (w2, Ok tt) /\
                disk w2 = with_pidFile Missing (disk w) /\ svc w2 = svc w) /\
  (getpid os' <> getpid os -> releaseLock os' w1 = (w1, Ok tt)).
Proof.
  intros A R R'. destruct (acquireLock_ok os w w1 A) as [Hd Hs].
  unfold releaseLock, removePidFile, bind, get_disk, put_disk, ret.
  rewrite Hd. simpl. rewrite (scanInt_itoa _ R). split.
  - intros E ->. rewrite E, Z.eqb_refl. eexists. split; [reflexivity |].
    simpl. rewrite Hd. split; [destruct (disk w); reflexivity | exact Hs].
  - intros N. destruct (Z.eqb_spec (getpid os) (getpid os')) as [E|_]; [congruence |].
    reflexivity.
Qed.

Lemma release_only_by_holder_witness :
  pidFile (disk (fst (releaseLock (lockOf 5000 (fun _ => true)) heldBy5000))) = Missing /\
  pidFile (disk (fst (releaseLock (lockOf 6000 (fun _ => true)) heldBy5000))) = Holds "5000".
Proof.
  assert (R5 : inIntRange 5000) by (vm_compute; split; discriminate).
  assert (R6 : inIntRange 6000) by (vm_compute; split; discriminate).
  assert (A : acquireLock (lockOf 5000 (fun _ => false)) (worldOf 0 emptyDisk)
              = (heldBy5000, Ok tt)) by reflexivity.
  split.
  - destruct (proj1 (release_only_by_holder _ (lockOf 5000 (fun _ => true)) _ _ A R5 R5)
                eq_refl eq_refl) as [w2 [-> [Hd _]]].
    simpl. rewrite Hd. reflexivity.
  - rewrite (proj2 (release_only_by_holder _ (lockOf 6000 (fun _ => true)) _ _ A R5 R6)
               ltac:(discriminate)).
    reflexivity.
Defined.

(** X2.  While the process that took the lock answers the probe, the
    status query reports it running under its id, and every further
    [acquireLock] is refused with that id and changes nothing. *)
Theorem holder_alive_excludes_others (os os' : LockEnv) (w w1 : World) :
  acquireLock os w = (w1, Ok tt) ->
  inIntRange (getpid os) ->
  probe os' (getpid os) = true ->
  GetStatus os' (disk w1) = Ok (true, getpid os) /\
  acquireLock os' w1
  = (w1, Err ("heartbeat already running with PID " +:+ itoa (getpid os))).
Proof.
  intros A R P. destruct (acquireLock_ok os w w1 A) as [Hd _].
  unfold GetStatus, acquireLock, bind, get_disk. rewrite Hd. simpl.
  rewrite (scanInt_itoa _ R), P. split; reflexivity.
Qed.

Lemma holder_alive_excludes_others_witness :
  snd (acquireLock (lockOf 6000 (fun pid => pid =? 5000)) heldBy5000)
  = Err "heartbeat already running with PID 5000".
Proof.
  assert (A : acquireLock (lockOf 5000 (fun _ => false)) (worldOf 0 emptyDisk)
              = (heldBy5000, Ok tt)) by reflexivity.
  destruct (holder_alive_excludes_others _ (lockOf 6000 (fun pid => pid =? 5000)) _ _ A
              ltac:(vm_compute; split; discriminate) eq_refl) as [_ ->].
  reflexivity.
Defined.

(** X3.  The status query and [acquireLock] agree: the status is
    running under id [pid] exactly when [acquireLock] is refused as
    already running under [pid]. *)
Theorem status_agrees_with_acquire (os : LockEnv) (w : World) (pid : Z) :
  inIntRange pid ->
  (GetStatus os (disk w) = Ok (true, pid)
   <-> snd (acquireLock os w) = Err ("heartbeat already running with PID " +:+ itoa pid)).
Proof.
  intros R. unfold GetStatus, acquireLock, removePidFile, emit, bind, get_disk, put_disk, ret, fail.
  destruct (pidFile (disk w)) as [|why|data]; simpl.
  - split; [discriminate |]. destruct (pid_write os) as [[]|e]; simpl; discriminate.
  - split; [discriminate |]. destruct (pid_write os) as [[]|e]; simpl; discriminate.
  - destruct (probe os (scanInt data)); simpl.
    + split.
      * intros [= ->]. reflexivity.
      * intros [= E]. apply append_inv_head in E.
        apply itoa_inj in E; [congruence | apply scanInt_in_range | exact R].
    + split; [discriminate |].
      destruct (pid_remove os) as [[]|e']; simpl;
        destruct (pid_write os) as [[]|e]; simpl; discriminate.
Qed.

Lemma status_agrees_with_acquire_witness :
  GetStatus (osWhere true) markedDisk = Ok (true, 4242).
Proof.
  apply (proj2 (status_agrees_with_acquire (osWhere true) (worldOf 0 markedDisk) 4242
                  ltac:(vm_compute; split; discriminate))).
  reflexivity.
Defined.

(* ===================================================================== *)
(** ** The main loop and [Start] *)
(* ===================================================================== *)

(** The main loop on any events: it returns no error, and the disk and
    the cycle number are those the cycles before the first stop leave. *)
Lemma mainLoop_run (events : list Event) :
  forall w : World,
    exists w', mainLoop events w = (w', Ok tt) /\
               disk w' = disk (fst (runCycles (ticksBefore events) w)) /\
               cycleNumber (svc w') = cycleNumber (svc (fst (runCycles (ticksBefore events) w))).
Proof.
  induction events as [|[env|sig|] rest IH]; intros w; simpl.
  - exists w. auto.
  - unfold bind. destruct (tick env w) as [w1 r1] eqn:T.
    destruct (tick_run env w w1 r1 T) as [w0 [r0 [_ [-> _]]]].
    destruct (IH w1) as [w' [-> [Hd Hc]]]. exists w'. split; [reflexivity |].
    destruct (runCycles (ticksBefore rest) w1). auto.
  - eexists. split; [reflexivity |]. auto.
  - eexists. split; [reflexivity |]. auto.
Qed.

(** X4.  The first signal or cancellation ends the main loop for good:
    whatever events follow it, ticks included, the loop does what it does
    when nothing follows, and it leaves the service marked as not
    running, with the disk the cycles before the stop left. *)
Theorem stop_is_terminal (envs : list CycleEnv) (stop : Event) (later_events : list Event)
    (w : World) :
  isStop stop = true ->
  mainLoop (map Tick envs ++ stop :: later_events) w = mainLoop (map Tick envs ++ [stop]) w /\
  running (svc (fst (mainLoop (map Tick envs ++ stop :: later_events) w))) = false /\
  disk (fst (mainLoop (map Tick envs ++ stop :: later_events) w))
  = disk (fst (runCycles envs w)).
Proof.
  intros S. revert w. induction envs as [|env rest IH]; intros w; simpl.
  - destruct stop as [e|sig|]; [discriminate | ..]; repeat split.
  - unfold bind. destruct (tick env w) as [w1 r1] eqn:T.
    destruct (tick_run env w w1 r1 T) as [w0 [r0 [_ [-> _]]]].
    destruct (IH w1) as [E [R D]]. rewrite E in *.
    destruct (runCycles rest w1). auto.
Qed.

Lemma stop_is_terminal_witness :
  disk (fst (mainLoop [Tick (smoothCycle (answering "All quiet.")); Signal "interrupt";
                       Tick (smoothCycle (answering (answerWith (observe "A"))))]
               (worldOf 0 emptyDisk)))
  = disk (fst (runCycles [smoothCycle (answering "All quiet.")] (worldOf 0 emptyDisk))).
Proof.
  apply (stop_is_terminal [smoothCycle (answering "All quiet.")] (Signal "interrupt")
           [Tick (smoothCycle (answering (answerWith (observe "A"))))] (worldOf 0 emptyDisk)
           eq_refl).
Defined.

(** X5.  When the marker names a process that answers the probe, [Start]
    returns the already-running error and changes nothing: no cycle runs,
    nothing is logged, no file is written. *)
Theorem start_refused_while_running (se : StartEnv) (events : list Event) (w : World)
    (data : string) :
  pidFile (disk w) = Holds data ->
  probe (os_acquire se) (scanInt data) = true ->
  Start se events w
  = (w, Err ("heartbeat already running with PID " +:+ itoa (scanInt data))).
Proof.
  intros H P. unfold Start. unfold bind at 1.
  unfold acquireLock, bind, get_disk. rewrite H, P. reflexivity.
Qed.

Lemma start_refused_while_running_witness :
  Start (smoothStart 5000 (fun _ => true)) [Tick (smoothCycle (answering "All quiet."))]
    (worldOf 0 markedDisk)
  = (worldOf 0 markedDisk, Err "heartbeat already running with PID 4242").
Proof.
  apply (start_refused_while_running (smoothStart 5000 (fun _ => true))
           [Tick (smoothCycle (answering "All quiet."))] (worldOf 0 markedDisk) "4242"
           eq_refl eq_refl).
Defined.

(* ===================================================================== *)
(** ** What a cycle writes and what it leaves alone *)
(* ===================================================================== *)

Lemma diskAfterBackup_other_files (now : Time) (mkdir write : outcome) (reason : string)
    (d : Disk) :
  goalsFile (diskAfterBackup now mkdir write reason d) = goalsFile d /\
  missionFile (diskAfterBackup now mkdir write reason d) = missionFile d /\
  logFile (diskAfterBackup now mkdir write reason d) = logFile d /\
  dom (backupDir d) ⊆ dom (backupDir (diskAfterBackup now mkdir write reason d)).
Proof.
  unfold diskAfterBackup.
  destruct (contextFile d), mkdir as [[]|?], write as [[]|?]; simpl;
    repeat split; try reflexivity.
  rewrite dom_insert. set_solver.
Qed.

(** The mission log after the last part of a cycle. *)
Lemma persistAndLog_log (env : CycleEnv) (n : Z) (ctx : Ctx.t) (response : string)
    (count : nat) (w w' : World) (r : outcome) :
  persistAndLog env n ctx response count w = (w', r) ->
  goalsFile (disk w') = goalsFile (disk w) /\
  missionFile (disk w') = missionFile (disk w) /\
  backupDir (disk w') = backupDir (disk w) /\
  logFile (disk w')
  = logFile (disk w)
    +:+ (if is_ok r && is_ok (log_open env) && is_ok (log_write env)
         then cat [ newline; "### "; format_log (t_log env); newline;
                    cycleLogEntry n (extractSummary response) count (duration env); newline ]
         else "").
Proof.
  unfold persistAndLog, SaveContext, AppendLog, wrapping, attempt, bind, get_disk, put_disk,
    emit, ret, fail.
  destruct (save_write env) as [[]|e]; simpl.
  - destruct (log_open env) as [[]|e1]; [destruct (log_write env) as [[]|e2] |]; simpl;
      intros [= <- <-]; simpl; repeat split; try reflexivity;
      try (symmetry; apply append_empty_r).
  - intros [= <- <-]. simpl. repeat split. symmetry. apply append_empty_r.
Qed.

(** The files of the state directory after one cycle. *)
Lemma runCycle_files (env : CycleEnv) (w w' : World) (r : outcome) :
  runCycle env w = (w', r) ->
  goalsFile (disk w') = goalsFile (disk w) /\
  missionFile (disk w') = missionFile (disk w) /\
  dom (backupDir (disk w)) ⊆ dom (backupDir (disk w')) /\
  (is_ok r = false -> logFile (disk w') = logFile (disk w)) /\
  (is_ok r = true ->
     exists n ctx response,
       snd (loadAndDelegate env w) = Ok (n, ctx, response) /\
       logFile (disk w')
       = logFile (disk w)
         +:+ (if is_ok (log_open env) && is_ok (log_write env)
              then cat [ newline; "### "; format_log (t_log env); newline;
                         cycleLogEntry n (extractSummary response)
                           (length (commandsOfBlock (firstBlock response))) (duration env);
                         newline ]
              else "")).
Proof.
  unfold runCycle. unfold bind at 1.
  destruct (loadAndDelegate env w) as [w1 r1] eqn:L.
  destruct (loadAndDelegate_run env w w1 r1 L) as [-> _].
  destruct r1 as [[[n ctx] response]|e].
  - unfold bind at 1.
    destruct (applyCommands_run env n ctx response (bumped w)) as [w2 [-> [_ Hd]]].
    change (disk (bumped w)) with (disk w) in Hd.
    intros P. apply persistAndLog_log in P. destruct P as [Hg [Hm [Hb Hl]]].
    assert (H2 : goalsFile (disk w2) = goalsFile (disk w) /\
                 missionFile (disk w2) = missionFile (disk w) /\
                 logFile (disk w2) = logFile (disk w) /\
                 dom (backupDir (disk w)) ⊆ dom (backupDir (disk w2))).
    { rewrite Hd. destruct (commandsOfBlock (firstBlock response)); [auto |].
      apply diskAfterBackup_other_files. }
    destruct H2 as [Hg2 [Hm2 [Hl2 Hb2]]].
    rewrite Hg, Hm, Hb, Hl, Hg2, Hm2, Hl2.
    split; [reflexivity |]. split; [reflexivity |]. split; [exact Hb2 |]. split.
    + intros ->. simpl. apply append_empty_r.
    + intros ->. simpl. exists n, ctx, response. split; reflexivity.
  - intros [= <- <-]. simpl. repeat split; try reflexivity. discriminate.
Qed.

(** The files of the state directory after a run of cycles. *)
Lemma runCycles_files (envs : list CycleEnv) :
  forall w : World,
    goalsFile (disk (fst (runCycles envs w))) = goalsFile (disk w) /\
    missionFile (disk (fst (runCycles envs w))) = missionFile (disk w) /\
    pidFile (disk (fst (runCycles envs w))) = pidFile (disk w) /\
    (exists appended,
       logFile (disk (fst (runCycles envs w))) = logFile (disk w) +:+ appended) /\
    dom (backupDir (disk w)) ⊆ dom (backupDir (disk (fst (runCycles envs w)))).
Proof.
  induction envs as [|env rest IH]; intros w; simpl.
  - repeat split; try reflexivity. exists "". symmetry. apply append_empty_r.
  - destruct (tick env w) as [w1 r1] eqn:T.
    destruct (tick_run env w w1 r1 T) as [w0 [r0 [R [-> [_ Hd]]]]].
    destruct (runCycle_files env w w0 r0 R) as [Hg [Hm [Hb [Hf Hs]]]].
    destruct (runCycle_inv env w w0 r0 R) as [_ [Hp _]].
    specialize (IH w1). destruct (runCycles rest w1) as [w2 rs]. simpl in *.
    destruct IH as [Ig [Im [Ip [[a Il] Ib]]]]. rewrite Hd in *.
    split; [congruence |]. split; [congruence |]. split; [congruence |]. split.
    + destruct (is_ok r0) eqn:E.
      * destruct (Hs eq_refl) as [n [ctx [resp [_ Hl]]]]. rewrite Il, Hl, append_assoc. eauto.
      * rewrite Il, (Hf eq_refl). eauto.
    + etransitivity; eassumption.
Qed.

(** X6.  What a run of cycles never does, whatever the agent answers and
    whichever cycles fail: it never writes the goals file, the mission
    file or the lock marker; it never alters or removes text already in
    the mission log (it only appends); it never removes a backup. *)
Theorem run_never_rewrites (envs : list CycleEnv) (w : World) :
  goalsFile (disk (fst (runCycles envs w))) = goalsFile (disk w) /\
  missionFile (disk (fst (runCycles envs w))) = missionFile (disk w) /\
  pidFile (disk (fst (runCycles envs w))) = pidFile (disk w) /\
  (exists appended,
     logFile (disk (fst (runCycles envs w))) = logFile (disk w) +:+ appended) /\
  dom (backupDir (disk w)) ⊆ dom (backupDir (disk (fst (runCycles envs w)))).
Proof. apply runCycles_files. Qed.

(** X7.  The entry of a cycle in the mission log.  A cycle that returns
    an error appends nothing.  A cycle that completes appends exactly one
    entry (a heading with the time, the cycle number, the summary line of
    the answer, the number of commands of the block, the duration, the
    success mark) when the log can be written, and nothing when it cannot;
    the cycle completes all the same. *)
Theorem cycle_log_entry (env : CycleEnv) (w w' : World) (r : outcome) :
  runCycle env w = (w', r) ->
  (is_ok r = false -> logFile (disk w') = logFile (disk w)) /\
  (is_ok r = true ->
     exists n ctx response,
       snd (loadAndDelegate env w) = Ok (n, ctx, response) /\
       logFile (disk w')
       = logFile (disk w)
         +:+ (if is_ok (log_open env) && is_ok (log_write env)
              then cat [ newline; "### "; format_log (t_log env); newline;
                         "**Cycle "; itoa n; "**"; newline; newline;
                         "Summary: "; extractSummary response; newline;
                         "Memory Updates: ";
                         itoa (Z.of_nat (length (commandsOfBlock (firstBlock response))));
                         " commands"; newline;
                         "Duration: "; duration env; newline;
                         "Status: ✅ Success"; newline; newline ]
              else "")).
Proof.
  intros R. destruct (runCycle_files env w w' r R) as [_ [_ [_ [Hf Hs]]]].
  split; [exact Hf |]. intros E. destruct (Hs E) as [n [ctx [resp [L Hl]]]].
  exists n, ctx, resp. split; [exact L |]. rewrite Hl. f_equal.
  destruct (is_ok (log_open env) && is_ok (log_write env)); [| reflexivity].
  unfold cycleLogEntry. rewrite !cat_cons, !append_assoc. reflexivity.
Qed.

Lemma cycle_log_entry_witness :
  logFile (disk (fst (runCycle (smoothCycle failingApp) (worldOf 0 emptyDisk)))) = "".
Proof.
  destruct (runCycle (smoothCycle failingApp) (worldOf 0 emptyDisk)) as [w' r] eqn:R.
  assert (is_ok r = false) by (vm_compute in R; injection R as _ <-; reflexivity).
  destruct (cycle_log_entry _ _ _ _ R) as [Hf _]. simpl. rewrite (Hf H). reflexivity.
Defined.

(* ===================================================================== *)
(** ** [Start], from the lock to the release *)
(* ===================================================================== *)



Lemma startUp_files (se : StartEnv) (w w' : World) (r : outcome) :
  startUp se w = (w', r) ->
  contextFile (disk w') = contextFile (disk w) /\ pidFile (disk w') = pidFile (disk w).
Proof.
  unfold startUp, setRunning, wrapping, LoadContext, AppendLog, attempt, bind, get_svc, put_svc,
    get_disk, put_disk, ret, fail.
  destruct w as [s d l]; simpl.
  destruct (contextFile d) as [|why|[c|raw why]] eqn:E; simpl;
    try (intros [= <- <-]; simpl; auto; fail);
    destruct (log_started se) as [[]|e]; simpl; intros [= <- <-]; simpl; auto.
Qed.

Lemma shutDown_files (se : StartEnv) (w : World) :
  exists w', shutDown se w = (w', Ok tt) /\
             contextFile (disk w') = contextFile (disk w) /\
             pidFile (disk w') = pidFile (disk w).
Proof.
  unfold shutDown, AppendLog, attempt, bind, get_svc, get_disk, put_disk, ret, fail.
  destruct (log_stopped se) as [[]|e]; simpl; eexists; (split; [reflexivity |]); auto.
Qed.

(** The body of [Start] under the deferred release. *)
Lemma start_body_files (se : StartEnv) (events : list Event) (w w' : World) (r : outcome) :
  (startUp se ;;; mainLoop events ;;; shutDown se) w = (w', r) ->
  pidFile (disk w') = pidFile (disk w) /\
  (contextFile (disk w') = contextFile (disk w) \/
   exists w1, startUp se w = (w1, Ok tt) /\
              contextFile (disk w') = contextFile (disk (fst (runCycles (ticksBefore events) w1)))).
Proof.
  unfold bind at 1. destruct (startUp se w) as [w1 r1] eqn:S.
  destruct (startUp_files se w w1 r1 S) as [Hc Hp].
  destruct r1 as [[]|e]; [| intros [= <- <-]; auto].
  unfold bind. destruct (mainLoop_run events w1) as [w2 [-> [Hd _]]].
  destruct (shutDown_files se w2) as [w3 [-> [Hc3 Hp3]]]. intros [= <- <-].
  rewrite Hp3, Hc3, Hd. split.
  - destruct (runCycles_files (ticksBefore events) w1) as [_ [_ [-> _]]]. exact Hp.
  - right. exists w1. auto.
Qed.

(** X8.  [Start] removes the marker it wrote on every way out, the
    failure of the initial load included (the removal going through): once
    [acquireLock] has succeeded, no marker is left when [Start] returns. *)
Theorem start_releases_its_marker (se : StartEnv) (events : list Event) (w w1 : World) :
  acquireLock (os_acquire se) w = (w1, Ok tt) ->
  inIntRange (getpid (os_acquire se)) ->
  getpid (os_release se) = getpid (os_acquire se) ->
  pid_remove (os_release se) = Ok tt ->
  pidFile (disk (fst (Start se events w))) = Missing.
Proof.
  intros A R E_pid E_rm. unfold Start. unfold bind at 1. rewrite A.
  unfold deferring.
  destruct ((startUp se;;; mainLoop events;;; shutDown se) w1) as [w2 r] eqn:B.
  destruct (start_body_files se events w1 w2 r B) as [Hp _].
  destruct (acquireLock_ok _ _ _ A) as [Hd _].
  assert (P2 : pidFile (disk w2) = Holds (itoa (getpid (os_acquire se)))).
  { rewrite Hp, Hd. reflexivity. }
  unfold releaseLock, removePidFile, bind, get_disk, put_disk, ret.
  rewrite P2, (scanInt_itoa _ R), E_pid, Z.eqb_refl, E_rm. reflexivity.
Qed.

Lemma start_releases_its_marker_witness :
  pidFile (disk (fst (Start (smoothStart 5000 (fun _ => false))
                        [Tick (smoothCycle (answering "All quiet.")); Signal "interrupt"]
                        (worldOf 0 emptyDisk))))
  = Missing.
Proof.
  apply (start_releases_its_marker (smoothStart 5000 (fun _ => false)) _ (worldOf 0 emptyDisk)
           heldBy5000 eq_refl ltac:(vm_compute; split; discriminate) eq_refl eq_refl).
Defined.



(* ===================================================================== *)
(** ** Commands only append *)
(* ===================================================================== *)

(** The effect of one command on the four sequences. *)
Lemma ExecuteMemoryCommand_appends (now : Time) (ctx : Ctx.t) (cmd : MemoryCommand.t) (cycle : Z) :
  exists (o : list Observation.t) (l : list Lesson.t) (h : list Hyp.t) (s : list Strategy.t),
    fst (ExecuteMemoryCommand now ctx cmd cycle)
    = Ctx.mk (Ctx.Observations ctx ++ o) (Ctx.Lessons ctx ++ l) (Ctx.Hypotheses ctx ++ h)
        (Ctx.Strategies ctx ++ s) (Ctx.Metadata ctx) /\
    (length o + length l + length h + length s)%nat = (if addsEntry cmd then 1 else 0)%nat /\
    Forall (fun x => Observation.Cycle x = cycle /\ Observation.Timestamp x = now) o /\
    Forall (fun x => Lesson.Cycle x = cycle /\ Lesson.Timestamp x = now) l /\
    Forall (fun x => Hyp.Cycle x = cycle /\ Hyp.Timestamp x = now /\ Hyp.Status x = "testing") h /\
    Forall (fun x => Strategy.Cycle x = cycle /\ Strategy.Timestamp x = now) s.
Proof.
  assert (Same : Ctx.mk (Ctx.Observations ctx ++ []) (Ctx.Lessons ctx ++ [])
                   (Ctx.Hypotheses ctx ++ []) (Ctx.Strategies ctx ++ []) (Ctx.Metadata ctx) = ctx).
  { rewrite !app_nil_r. destruct ctx; reflexivity. }
  unfold ExecuteMemoryCommand, addsEntry, isValidCommand. rewrite !as_string_is_Some.
  destruct (String.eqb_spec (MemoryCommand.Command cmd) "add_observation") as [E|_].
  { rewrite E. simpl.
    destruct (as_string (MemoryCommand.Data cmd !! "content")) as [c|]; simpl.
    - exists [Observation.mk c now cycle], [], [], []. rewrite !app_nil_r.
      repeat split; repeat constructor.
    - exists [], [], [], []. rewrite Same. repeat split; constructor. }
  destruct (String.eqb_spec (MemoryCommand.Command cmd) "add_lesson") as [E|_].
  { rewrite E. simpl.
    destruct (as_string (MemoryCommand.Data cmd !! "content")) as [c|]; simpl.
    - eexists [], [_], [], []. rewrite !app_nil_r.
      repeat split; repeat constructor.
    - exists [], [], [], []. rewrite Same. repeat split; constructor. }
  destruct (String.eqb_spec (MemoryCommand.Command cmd) "add_hypothesis") as [E|_].
  { rewrite E. simpl.
    destruct (as_string (MemoryCommand.Data cmd !! "content")) as [c|]; simpl.
    - eexists [], [], [_], []. rewrite !app_nil_r.
      repeat split; repeat constructor.
    - exists [], [], [], []. rewrite Same. repeat split; constructor. }
  destruct (String.eqb_spec (MemoryCommand.Command cmd) "add_strategy") as [E|_].
  { rewrite E. simpl.
    destruct (as_string (MemoryCommand.Data cmd !! "name")) as [nm|],
      (as_string (MemoryCommand.Data cmd !! "description")) as [ds|]; simpl;
      try (exists [], [], [], []; rewrite Same; repeat split; constructor).
    eexists [], [], [], [_]. rewrite !app_nil_r. repeat split; repeat constructor. }
  simpl. exists [], [], [], []. rewrite Same.
  destruct (String.eqb (MemoryCommand.Command cmd) "prune_old"); simpl;
    repeat split; constructor.
Qed.

(** X10.  Whatever the command, [ExecuteMemoryCommand] only appends: each
    of the four sequences keeps its entries, in order, in front of what is
    added; the metadata is not touched; and the knowledge base grows by
    exactly one entry, stamped with the cycle of the call, when the
    command is valid and not [prune_old], and by none otherwise. *)
Theorem command_only_appends (now : Time) (ctx : Ctx.t) (cmd : MemoryCommand.t) (cycle : Z) :
  exists (o : list Observation.t) (l : list Lesson.t) (h : list Hyp.t) (s : list Strategy.t),
    fst (ExecuteMemoryCommand now ctx cmd cycle)
    = Ctx.mk (Ctx.Observations ctx ++ o) (Ctx.Lessons ctx ++ l) (Ctx.Hypotheses ctx ++ h)
        (Ctx.Strategies ctx ++ s) (Ctx.Metadata ctx) /\
    (length o + length l + length h + length s)%nat = (if addsEntry cmd then 1 else 0)%nat /\
    Forall (fun x => Observation.Cycle x = cycle /\ Observation.Timestamp x = now) o /\
    Forall (fun x => Lesson.Cycle x = cycle /\ Lesson.Timestamp x = now) l /\
    Forall (fun x => Hyp.Cycle x = cycle /\ Hyp.Timestamp x = now /\ Hyp.Status x = "testing") h /\
    Forall (fun x => Strategy.Cycle x = cycle /\ Strategy.Timestamp x = now) s.
Proof. apply ExecuteMemoryCommand_appends. Qed.


Lemma ExecuteMemoryCommand_observation (now : Time) (ctx : Ctx.t) (cmd : MemoryCommand.t)
    (cycle : Z) :
  map Observation.Content (Ctx.Observations (fst (ExecuteMemoryCommand now ctx cmd cycle)))
  = (map Observation.Content (Ctx.Observations ctx) ++ option_list (observationOf cmd))%list.
Proof.
  unfold ExecuteMemoryCommand, observationOf.
  destruct (String.eqb_spec (MemoryCommand.Command cmd) "add_observation") as [E|N].
  { simpl. destruct (as_string (MemoryCommand.Data cmd !! "content")); simpl.
    - rewrite map_app. reflexivity.
    - now rewrite app_nil_r. }
  repeat match goal with
         | |- context [if ?b then _ else _] => destruct b
         | |- context [match as_string ?v with _ => _ end] => destruct (as_string v)
         end; simpl; now rewrite app_nil_r.
Qed.

(** The command loop on a block, as a whole. *)
Lemma appliedContext_block (clock : nat -> Time) (cycle : Z) (cmds : list MemoryCommand.t) :
  forall (i : nat) (ctx : Ctx.t),
    entryCount (appliedContext clock cycle i ctx cmds)
    = (entryCount ctx + length (filter (fun c => addsEntry c = true) cmds))%nat /\
    map Observation.Content (Ctx.Observations (appliedContext clock cycle i ctx cmds))
    = (map Observation.Content (Ctx.Observations ctx) ++ omap observationOf cmds)%list /\
    Ctx.Metadata (appliedContext clock cycle i ctx cmds) = Ctx.Metadata ctx.
Proof.
  induction cmds as [|cmd rest IH]; intros i ctx; simpl.
  - rewrite app_nil_r, Nat.add_0_r. auto.
  - destruct (IH (S i) (fst (ExecuteMemoryCommand (clock i) ctx cmd cycle))) as [Hn [Ho Hm]].
    rewrite Hn, Ho, Hm, ExecuteMemoryCommand_observation.
    destruct (ExecuteMemoryCommand_appends (clock i) ctx cmd cycle)
      as [o [l [h [s [E [Hc _]]]]]].
    rewrite E. unfold entryCount. simpl. rewrite !length_app, filter_cons.
    split; [| split; [| reflexivity]].
    + destruct (decide (addsEntry cmd = true)) as [A|A].
      * rewrite A in Hc. simpl. lia.
      * apply not_true_is_false in A. rewrite A in Hc. lia.
    + rewrite <- app_assoc. f_equal. destruct (observationOf cmd); reflexivity.
Qed.

(** X11.  The command loop on a block: it returns no error; the
    knowledge base grows by as many entries as the block has valid
    commands other than [prune_old]; the observations added are those of
    the valid [add_observation] commands, in the order of the block, after
    the observations already there; the metadata is not touched; and one
    log record is written per command. *)
Theorem block_adds_its_valid_commands (clock : nat -> Time) (cycle : Z) (i : nat) (ctx : Ctx.t)
    (cmds : list MemoryCommand.t) (w : World) :
  exists w' ctx',
    executeCommands clock cycle i ctx cmds w = (w', Ok ctx') /\
    entryCount ctx' = (entryCount ctx + length (filter (fun c => addsEntry c = true) cmds))%nat /\
    map Observation.Content (Ctx.Observations ctx')
    = (map Observation.Content (Ctx.Observations ctx) ++ omap observationOf cmds)%list /\
    Ctx.Metadata ctx' = Ctx.Metadata ctx /\
    length (slog w') = (length (slog w) + length cmds)%nat /\
    disk w' = disk w.
Proof.
  eexists. eexists. split; [apply executeCommands_run |].
  destruct (appliedContext_block clock cycle cmds i ctx) as [Hn [Ho Hm]].
  split; [exact Hn |]. split; [exact Ho |]. split; [exact Hm |]. split; [| reflexivity].
  simpl. rewrite length_app. f_equal.
  clear. revert i ctx. induction cmds as [|c rest IH]; intros i ctx; simpl; [reflexivity |].
  now rewrite IH.
Qed.

(* ===================================================================== *)
(** ** What the prompt shows of goals and hypotheses *)
(* ===================================================================== *)

Lemma writeGoal_inactive (i : nat) (g : GoalRec.t) :
  GoalRec.Status g <> "active" -> writeGoal i g = "".
Proof.
  intros N. unfold writeGoal.
  destruct (String.eqb_spec (GoalRec.Status g) "active"); [contradiction | reflexivity].
Qed.

Lemma imap_all_inactive (gs : list GoalRec.t) :
  Forall (fun g => GoalRec.Status g <> "active") gs ->
  forall f : nat -> nat, cat (imap (fun i => writeGoal (f i)) gs) = "".
Proof.
  induction 1 as [|g rest N _ IH]; intros f; [reflexivity |].
  rewrite imap_cons, cat_cons, writeGoal_inactive by exact N.
  exact (IH (fun i => f (S i))).
Qed.

Lemma imap_swap_inactive (pre post : list GoalRec.t) (g g' : GoalRec.t) :
  GoalRec.Status g <> "active" -> GoalRec.Status g' <> "active" ->
  imap writeGoal (pre ++ g :: post) = imap writeGoal (pre ++ g' :: post).
Proof.
  intros N N'. rewrite !imap_app, !imap_cons, !writeGoal_inactive by assumption. reflexivity.
Qed.

Lemma writeGoals_nonempty (gs : list GoalRec.t) (m : GoalsMeta.t) :
  gs <> [] -> writeGoals (Goals.mk gs m) = cat (imap writeGoal gs).
Proof. destruct gs; [contradiction | reflexivity]. Qed.

(** X12.  A goal that is not active leaves no trace in the prompt:
    replacing it by any other goal that is not active gives the same
    prompt.  A goal set that has goals, none of them active, gives an
    empty goal section: the note that there are no active goals is
    written only for a goal set without any goal. *)
Theorem inactive_goals_are_not_shown (now : Time) (ctx : Ctx.t) (mission : string) (n : Z) :
  (forall pre post g g' m m',
     GoalRec.Status g <> "active" -> GoalRec.Status g' <> "active" ->
     BuildUserPrompt now ctx (Goals.mk (pre ++ g :: post) m) mission n
     = BuildUserPrompt now ctx (Goals.mk (pre ++ g' :: post) m') mission n) /\
  (forall goals,
     Goals.Goals goals <> [] ->
     Forall (fun g => GoalRec.Status g <> "active") (Goals.Goals goals) ->
     writeGoals goals = "") /\
  (forall m, writeGoals (Goals.mk [] m) = cat ["*No active goals*"; newline; newline]).
Proof.
  split; [| split].
  - intros pre post g g' m m' N N'.
    unfold BuildUserPrompt, promptHead.
    rewrite !writeGoals_nonempty by (destruct pre; discriminate).
    rewrite (imap_swap_inactive pre post g g' N N'). reflexivity.
  - intros [gs m] NE F. unfold writeGoals. simpl in *.
    destruct gs as [|g rest]; [contradiction |].
    exact (imap_all_inactive (g :: rest) F (fun i => i)).
  - reflexivity.
Qed.

Lemma inactive_goals_are_not_shown_witness :
  writeGoals pausedGoals = "".
Proof.
  apply (proj1 (proj2 (inactive_goals_are_not_shown noon storedContext "" 1)) pausedGoals).
  - discriminate.
  - repeat constructor; discriminate.
Defined.

Lemma writeHypothesis_not_testing (h : Hyp.t) :
  Hyp.Status h <> "testing" -> writeHypothesis h = "".
Proof.
  intros N. unfold writeHypothesis.
  destruct (String.eqb_spec (Hyp.Status h) "testing"); [contradiction | reflexivity].
Qed.

(** X13.  A hypothesis that is not under test (validated, rejected, or
    of any other status) is not shown: replacing it by any other
    hypothesis that is not under test gives the same prompt; and the
    section lists the contents of the hypotheses under test, in stored
    order. *)
Theorem settled_hypotheses_are_not_shown (now : Time) (ctx : Ctx.t) (goals : Goals.t)
    (mission : string) (n : Z) :
  (forall pre post h h',
     Hyp.Status h <> "testing" -> Hyp.Status h' <> "testing" ->
     BuildUserPrompt now (Ctx.with_Hypotheses (pre ++ h :: post) ctx) goals mission n
     = BuildUserPrompt now (Ctx.with_Hypotheses (pre ++ h' :: post) ctx) goals mission n) /\
  (forall hyps,
     cat (map writeHypothesis hyps)
     = cat (map (fun h => cat ["- "; Hyp.Content h; newline])
              (filter (fun h => Hyp.Status h = "testing") hyps))).
Proof.
  split.
  - intros pre post h h' N N'.
    unfold BuildUserPrompt, promptTail, writeHypotheses. simpl.
    rewrite !map_app. simpl map. rewrite !writeHypothesis_not_testing by assumption.
    destruct pre; reflexivity.
  - induction hyps as [|h rest IH]; [reflexivity |].
    rewrite filter_cons. simpl map. rewrite cat_cons, IH.
    unfold writeHypothesis at 1.
    destruct (String.eqb_spec (Hyp.Status h) "testing") as [E|N];
      destruct (decide (Hyp.Status h = "testing")); try contradiction; reflexivity.
Qed.

Lemma settled_hypotheses_are_not_shown_witness :
  BuildUserPrompt noon twoHypotheses noGoals "" 3
  = BuildUserPrompt noon
      (Ctx.with_Hypotheses [Hyp.mk "another" later 1 "rejected" ["e"];
                            Hyp.mk "new idea" noon 2 "testing" []] twoHypotheses)
      noGoals "" 3.
Proof.
  apply (proj1 (settled_hypotheses_are_not_shown noon twoHypotheses noGoals "" 3)
           [] [Hyp.mk "new idea" noon 2 "testing" []]
           (Hyp.mk "old idea" noon 1 "validated" []) (Hyp.mk "another" later 1 "rejected" ["e"]));
    discriminate.
Defined.

(* ===================================================================== *)
(** ** What the prompt reads *)
(* ===================================================================== *)

Lemma Forall2_map_eq {A B : Type} (R : A -> A -> Prop) (f : A -> B) :
  (forall a b, R a b -> f a = f b) ->
  forall l l', Forall2 R l l' -> map f l = map f l'.
Proof.
  intros H l l' F. induction F as [|a b l l' Hab _ IH]; [reflexivity |].
  simpl. rewrite (H a b Hab), IH. reflexivity.
Qed.

Lemma writeObservations_same (obs obs' : list Observation.t) :
  Forall2 sameObservation obs obs' -> writeObservations obs = writeObservations obs'.
Proof.
  intros F. unfold writeObservations.
  assert (E : map writeObservation (recentObservations obs)
              = map writeObservation (recentObservations obs')).
  { rewrite !recentObservations_drop, (Forall2_length _ _ _ F).
    apply (Forall2_map_eq sameObservation).
    - intros a b [H1 H2]. unfold writeObservation. now rewrite H1, H2.
    - now apply Forall2_drop. }
  rewrite E. destruct F; reflexivity.
Qed.

Lemma writeLessons_same (ls ls' : list Lesson.t) :
  Forall2 sameLesson ls ls' -> writeLessons ls = writeLessons ls'.
Proof.
  intros F. unfold writeLessons.
  rewrite (Forall2_map_eq sameLesson writeLesson) with (l' := ls') by
    (try exact F; intros a b [H1 H2]; unfold writeLesson; now rewrite H1, H2).
  destruct F; reflexivity.
Qed.

Lemma writeHypotheses_same (hs hs' : list Hyp.t) :
  Forall2 sameHypothesis hs hs' -> writeHypotheses hs = writeHypotheses hs'.
Proof.
  intros F. unfold writeHypotheses.
  rewrite (Forall2_map_eq sameHypothesis writeHypothesis) with (l' := hs') by
    (try exact F; intros a b [H1 H2]; unfold writeHypothesis; now rewrite H1, H2).
  destruct F; reflexivity.
Qed.

Lemma writeStrategies_same (ss ss' : list Strategy.t) :
  Forall2 sameStrategy ss ss' -> writeStrategies ss = writeStrategies ss'.
Proof.
  intros F. unfold writeStrategies.
  rewrite (Forall2_map_eq sameStrategy writeStrategy) with (l' := ss') by
    (try exact F; intros a b [H1 [H2 H3]]; unfold writeStrategy; now rewrite H1, H2, H3).
  destruct F; reflexivity.
Qed.

Lemma imap_writeGoal_same (gs gs' : list GoalRec.t) :
  Forall2 sameGoal gs gs' ->
  forall f : nat -> nat,
    imap (fun i => writeGoal (f i)) gs = imap (fun i => writeGoal (f i)) gs'.
Proof.
  induction 1 as [|a b l l' Hab _ IH]; intros f; [reflexivity |].
  rewrite !imap_cons. f_equal.
  - destruct Hab as [H1 [H2 [H3 [H4 H5]]]]. unfold writeGoal. now rewrite H1, H2, H3, H4, H5.
  - exact (IH (fun i => f (S i))).
Qed.

Lemma writeGoals_same (goals goals' : Goals.t) :
  Forall2 sameGoal (Goals.Goals goals) (Goals.Goals goals') ->
  writeGoals goals = writeGoals goals'.
Proof.
  intros F. unfold writeGoals.
  pose proof (imap_writeGoal_same _ _ F (fun i => i)) as E.
  destruct F; [reflexivity |]. exact (f_equal cat E).
Qed.

(** X14.  The prompt reads, of the state, only what it prints: of an
    observation the cycle and the content, of a lesson the content and
    the confidence, of a hypothesis the content and the status, of a
    strategy the name, the description and the effectiveness, of a goal
    the priority, the title, the description, the status and the latest
    progress entry.  Two states that agree on these give the same prompt:
    time stamps of entries, the metadata (version, total_cycles), goal
    ids, earlier progress entries, the evidence of a hypothesis and the
    mission text do not reach it. *)
Theorem prompt_reads_what_it_prints (now : Time) (ctx ctx' : Ctx.t) (goals goals' : Goals.t)
    (mission mission' : string) (n : Z) :
  Forall2 sameObservation (Ctx.Observations ctx) (Ctx.Observations ctx') ->
  Forall2 sameLesson (Ctx.Lessons ctx) (Ctx.Lessons ctx') ->
  Forall2 sameHypothesis (Ctx.Hypotheses ctx) (Ctx.Hypotheses ctx') ->
  Forall2 sameStrategy (Ctx.Strategies ctx) (Ctx.Strategies ctx') ->
  Forall2 sameGoal (Goals.Goals goals) (Goals.Goals goals') ->
  BuildUserPrompt now ctx goals mission n = BuildUserPrompt now ctx' goals' mission' n.
Proof.
  intros Ho Hl Hh Hs Hg. unfold BuildUserPrompt, promptHead, promptTail.
  rewrite (writeObservations_same _ _ Ho), (writeLessons_same _ _ Hl),
    (writeHypotheses_same _ _ Hh), (writeStrategies_same _ _ Hs), (writeGoals_same _ _ Hg).
  reflexivity.
Qed.

Lemma prompt_reads_what_it_prints_witness :
  BuildUserPrompt noon storedContext noGoals "mission" 2
  = BuildUserPrompt noon storedContextRestamped noGoals "" 2.
Proof.
  apply prompt_reads_what_it_prints; repeat constructor.
Defined.

(* ===================================================================== *)
(** ** The summary line of an answer *)
(* ===================================================================== *)

Lemma length_take_bytes (n : nat) (s : string) :
  String.length (take_bytes n s) = Nat.min n (String.length s).
Proof.
  unfold take_bytes. revert s. induction n as [|n IH]; intros [|c s]; simpl; auto.
Qed.

Lemma length_clip (s : string) : (String.length (clip s) <= 150)%nat.
Proof.
  unfold clip. destruct (Nat.ltb_spec 150 (String.length s)) as [H|H]; [| exact H].
  rewrite length_append, length_take_bytes.
  change (String.length "...") with 3%nat. lia.
Qed.

Lemma clip_empty (s : string) : clip s = "" -> s = "".
Proof.
  unfold clip. destruct (Nat.ltb_spec 150 (String.length s)) as [H|H]; [| auto].
  intros E. apply (f_equal String.length) in E.
  rewrite length_append, length_take_bytes in E.
  change (String.length "...") with 3%nat in E. change (String.length "") with 0%nat in E. lia.
Qed.

Lemma extractSummary_cases (response : string) :
  (contentLines response = [] /\ extractSummary response = clip response) \/
  (exists t rest, contentLines response = t :: rest /\ extractSummary response = clip t).
Proof.
  unfold extractSummary. fold (contentLines response).
  destruct (contentLines response) as [|t rest]; [left | right]; eauto.
Qed.

(** X15.  The summary line is never longer than 150 bytes, and it is
    empty only for an empty answer. *)
Theorem summary_is_bounded (response : string) :
  (String.length (extractSummary response) <= 150)%nat /\
  (extractSummary response = "" <-> response = "").
Proof.
  split.
  - destruct (extractSummary_cases response) as [[_ ->] | [t [rest [_ ->]]]]; apply length_clip.
  - split; [| intros ->; reflexivity].
    destruct (extractSummary_cases response) as [[_ ->] | [t [rest [E ->]]]].
    + apply clip_empty.
    + intros C. apply clip_empty in C. subst t.
      assert (In "" (contentLines response)) as I by (rewrite E; left; reflexivity).
      apply list_elem_of_In in I. unfold contentLines in I.
      apply list_elem_of_filter in I. destruct I as [I _]. discriminate I.
Qed.

Lemma summary_is_bounded_witness : extractSummary "" = "".
Proof. apply (proj2 (proj2 (summary_is_bounded "")) eq_refl). Defined.

Lemma occurs_append (c : ascii) (a b : string) : occurs c (a +:+ b) = occurs c a || occurs c b.
Proof.
  induction a as [|x a IH]; [reflexivity |].
  rewrite append_cons. simpl. rewrite IH. now rewrite orb_assoc.
Qed.

Lemma occurs_take_bytes (c : ascii) (n : nat) (s : string) :
  occurs c s = false -> occurs c (take_bytes n s) = false.
Proof.
  unfold take_bytes. revert s. induction n as [|n IH]; intros [|x s]; simpl; auto.
  intros H. apply orb_false_elim in H. destruct H as [-> H]. simpl. auto.
Qed.

Lemma occurs_clip (s : string) : occurs nl s = false -> occurs nl (clip s) = false.
Proof.
  intros H. unfold clip. destruct (150 <? String.length s)%nat; [| exact H].
  rewrite occurs_append, occurs_take_bytes by exact H. reflexivity.
Qed.

Lemma occurs_trimMarks (c : ascii) (s : string) :
  occurs c s = false -> occurs c (trimMarks s) = false.
Proof.
  induction s as [|x s IH]; [auto |]. intros H. simpl.
  destruct (Ascii.eqb x "#" || Re.is_space x || Ascii.eqb x "*" || Ascii.eqb x "-");
    [| exact H].
  simpl in H. apply orb_false_elim in H. destruct H as [_ H]. auto.
Qed.

Lemma trimMarks_head (s : string) :
  trimMarks s = "" \/ exists c r, trimMarks s = String c r /\ isMark c = false.
Proof.
  induction s as [|x s IH]; [left; reflexivity |]. simpl. fold (isMark x).
  destruct (isMark x) eqn:E; [exact IH |]. right. eauto.
Qed.

(** No line of [splitLines] holds a line feed. *)
Lemma splitLines_lines (n : nat) :
  forall s : string, (String.length s <= n)%nat ->
    Forall (fun l => occurs nl l = false) (splitLines s).
Proof.
  induction n as [|n IH]; intros [|c r] L; simpl in L; try lia;
    try (repeat constructor; fail).
  assert (Keep : Ascii.eqb c nl = false ->
                 Forall (fun l => occurs nl l = false)
                   match splitLines r with
                   | l :: ls => String c l :: ls
                   | [] => [String c ""]
                   end).
  { intros N. pose proof (IH r ltac:(lia)) as F.
    destruct (splitLines r) as [|l ls].
    - constructor; [simpl; now rewrite N | constructor].
    - inversion F as [|? ? Hl Hls]; subst. constructor; [simpl; now rewrite N, Hl | exact Hls]. }
  simpl. destruct (Ascii.eqb c nl) eqn:N.
  - constructor; [reflexivity | apply IH; lia].
  - destruct (Ascii.eqb c cr); [| now apply Keep].
    destruct r as [|c2 r2]; [now apply Keep |].
    destruct (Ascii.eqb c2 nl); [| now apply Keep].
    constructor; [reflexivity |]. apply IH. simpl in L. lia.
Qed.

(** X16.  When some line of the answer has text after its leading marks
    (hash signs, asterisks, dashes, white space), the summary is the first
    such line without those marks, cut to 150 bytes: it is a single line
    (it holds no line feed) and does not begin with a mark. *)
Theorem summary_is_first_content_line (response t : string) (rest : list string) :
  contentLines response = t :: rest ->
  extractSummary response = clip t /\
  occurs nl (extractSummary response) = false /\
  exists c r, extractSummary response = String c r /\ isMark c = false.
Proof.
  intros E.
  destruct (extractSummary_cases response) as [[E' _] | [t' [rest' [E' S]]]];
    rewrite E in E'; [discriminate |]. injection E' as <- <-.
  assert (I : t ∈ contentLines response) by (rewrite E; left).
  unfold contentLines in I. apply list_elem_of_filter in I. destruct I as [Hlen I].
  apply list_elem_of_fmap in I. destruct I as [line [-> I]].
  pose proof (splitLines_lines (String.length response) response (le_n _)) as F.
  rewrite Forall_forall in F. specialize (F line I).
  split; [exact S |]. rewrite S. split.
  - apply occurs_clip, occurs_trimMarks, F.
  - destruct (trimMarks_head line) as [Z | [c [r [T M]]]].
    + rewrite Z in Hlen. discriminate Hlen.
    + rewrite T. unfold clip.
      destruct (150 <? String.length (String c r))%nat; eauto.
Qed.

Lemma summary_is_first_content_line_witness :
  extractSummary headedAnswer = "Progress".
Proof.
  destruct (summary_is_first_content_line headedAnswer "Progress" ["looked at the parser"]
              eq_refl) as [-> _].
  reflexivity.
Defined.

(* ===================================================================== *)
(** ** The block that the marker pattern extracts *)
(* ===================================================================== *)

Lemma strip_prefix_sound (p : string) :
  forall s r, strip_prefix p s = Some r -> s = p +:+ r.
Proof.
  induction p as [|a p IH]; intros s r; simpl.
  - intros [= ->]. reflexivity.
  - destruct s as [|b s]; [discriminate |].
    destruct (Ascii.eqb_spec a b) as [->|]; [| discriminate].
    intros H. rewrite append_cons, (IH s r H). reflexivity.
Qed.

Lemma strip_prefix_complete (p x : string) : strip_prefix p (p +:+ x) = Some x.
Proof.
  induction p as [|a p IH]; [reflexivity |].
  rewrite append_cons. simpl. now rewrite Ascii.eqb_refl.
Qed.

Lemma span_space_sound (s : string) :
  s = fst (Re.span_space s) +:+ snd (Re.span_space s) /\
  allSpace (fst (Re.span_space s)) = true.
Proof.
  induction s as [|c s [IH1 IH2]]; [split; reflexivity |]. simpl.
  destruct (Re.is_space c) eqn:E; [| split; reflexivity].
  destruct (Re.span_space s) as [ws rest]. simpl in *.
  subst s. rewrite E. split; [reflexivity | exact IH2].
Qed.

Lemma span_space_complete (ws x : string) :
  allSpace ws = true ->
  (forall c r, x = String c r -> Re.is_space c = false) ->
  Re.span_space (ws +:+ x) = (ws, x).
Proof.
  intros A N. induction ws as [|c ws IH].
  - destruct x as [|c r]; [reflexivity |]. simpl. now rewrite (N c r eq_refl).
  - simpl in A. apply andb_prop in A. destruct A as [Hc A].
    rewrite append_cons. simpl. rewrite Hc, (IH A). reflexivity.
Qed.

Lemma through_last_nl_sound (ws : string) :
  forall p, Re.through_last_nl ws = Some p ->
    exists q t, ws = p +:+ q /\ p = t +:+ newline /\ (allSpace ws = true -> allSpace p = true).
Proof.
  induction ws as [|c ws IH]; intros p; simpl; [discriminate |].
  destruct (Re.through_last_nl ws) as [p'|].
  - intros [= <-]. destruct (IH p' eq_refl) as [q [t [-> [-> A]]]].
    exists q, (String c t). repeat split.
    intros H. simpl in H. apply andb_prop in H. destruct H as [Hc H].
    simpl. rewrite Hc. simpl. apply A, H.
  - destruct (Ascii.eqb_spec c nl) as [->|]; [| discriminate]. intros [= <-].
    exists ws, "". repeat split.
Qed.

Lemma drop_bytes_append (p x : string) : drop_bytes (String.length p) (p +:+ x) = x.
Proof. induction p as [|c p IH]; [reflexivity | exact IH]. Qed.

Lemma match_tail_sound (s t after : string) :
  Re.match_tail s = Some (t, after) ->
  s = t +:+ after /\ allSpace t = true /\ endsBlock t after.
Proof.
  unfold Re.match_tail. destruct (span_space_sound s) as [E A].
  destruct (Re.through_last_nl (fst (Re.span_space s))) as [p|] eqn:T.
  - intros [= <- <-]. destruct (through_last_nl_sound _ p T) as [q [t [Ew [Ep Ap]]]].
    assert (Es : s = p +:+ (q +:+ snd (Re.span_space s))).
    { rewrite <- append_assoc, <- Ew. exact E. }
    rewrite Es at 1 2. rewrite drop_bytes_append.
    split; [reflexivity |]. split; [auto |]. right. eauto.
  - destruct s; [| discriminate]. intros [= <- <-]. repeat split. left. auto.
Qed.

Lemma match_lazy_sound (s : string) :
  forall m after, Re.match_lazy s = Some (m, after) ->
    s = m +:+ after /\
    exists body tail, m = body +:+ "]" +:+ tail /\ allSpace tail = true /\ endsBlock tail after.
Proof.
  induction s as [|c s IH]; intros m after; simpl; [discriminate |].
  assert (Longer : match Re.match_lazy s with
                   | Some (m0, rest) => Some (String c m0, rest)
                   | None => None
                   end = Some (m, after) ->
                   String c s = m +:+ after /\
                   exists body tail, m = body +:+ "]" +:+ tail /\ allSpace tail = true /\
                                     endsBlock tail after).
  { destruct (Re.match_lazy s) as [[m0 rest]|]; [| discriminate]. intros [= <- <-].
    destruct (IH m0 rest eq_refl) as [-> [body [tail [-> [A E]]]]].
    split; [reflexivity |]. exists (String c body), tail. auto. }
  destruct (Ascii.eqb_spec c "]") as [->|]; [| exact Longer].
  destruct (Re.match_tail s) as [[t rest]|] eqn:T; [| exact Longer].
  intros [= <- <-]. destruct (match_tail_sound s t rest T) as [-> [A E]].
  split; [reflexivity |]. exists "", t. auto.
Qed.

Lemma match_here_sound (s block after : string) :
  Re.match_here s = Some (block, after) ->
  exists ws body tail,
    s = marker +:+ ws +:+ block +:+ after /\ allSpace ws = true /\
    block = "[" +:+ body +:+ "]" +:+ tail /\ allSpace tail = true /\ endsBlock tail after.
Proof.
  unfold Re.match_here. destruct (strip_prefix "MEMORY_COMMANDS:" s) as [r|] eqn:P; [| discriminate].
  apply strip_prefix_sound in P. destruct (span_space_sound r) as [E A].
  destruct (snd (Re.span_space r)) as [|c body0]; [discriminate |].
  destruct (Ascii.eqb_spec c "[") as [->|N].
  - destruct (Re.match_lazy body0) as [[m rest]|] eqn:L; [| discriminate]. intros [= <- <-].
    destruct (match_lazy_sound body0 m rest L) as [-> [body [tail [-> [At Et]]]]].
    exists (fst (Re.span_space r)), body, tail.
    split; [| auto]. rewrite P, E at 1. reflexivity.
  - destruct c as [[] [] [] [] [] [] [] []]; try discriminate. contradiction N. reflexivity.
Qed.

Lemma find_cons (c : ascii) (s : string) :
  Re.find (String c s)
  = match Re.match_here (String c s) with
    | Some m => Some m
    | None => Re.find s
    end.
Proof. reflexivity. Qed.

Lemma find_sound (s : string) :
  forall block after, Re.find s = Some (block, after) ->
    exists before ws body tail,
      s = before +:+ marker +:+ ws +:+ block +:+ after /\ allSpace ws = true /\
      block = "[" +:+ body +:+ "]" +:+ tail /\ allSpace tail = true /\ endsBlock tail after.
Proof.
  induction s as [|c s IH]; intros block after F.
  - vm_compute in F. discriminate F.
  - rewrite find_cons in F. destruct (Re.match_here (String c s)) as [m|] eqn:H.
    + injection F as ->. destruct (match_here_sound _ _ _ H) as [ws [body [tail [E R]]]].
      exists "", ws, body, tail. auto.
    + destruct (IH block after F) as [before [ws [body [tail [-> R]]]]].
      exists (String c before), ws, body, tail. auto.
Qed.

(** X17.  A block is only ever taken from behind the marker: when the
    extraction yields a block, the answer reads, somewhere, marker, white
    space, block; the block opens with a bracket and ends with a closing
    bracket followed by white space only, at the end of a line or of the
    answer.  An answer in which the marker text does not occur yields no
    command. *)
Theorem block_follows_the_marker (response : string) :
  (forall block, firstBlock response = Some block ->
     exists before ws body tail after,
       response = before +:+ marker +:+ ws +:+ block +:+ after /\ allSpace ws = true /\
       block = "[" +:+ body +:+ "]" +:+ tail /\ allSpace tail = true /\ endsBlock tail after) /\
  ((forall before after, response <> before +:+ marker +:+ after) ->
     firstBlock response = None /\ commandsOfBlock (firstBlock response) = []).
Proof.
  assert (S : forall block, firstBlock response = Some block ->
              exists before ws body tail after,
                response = before +:+ marker +:+ ws +:+ block +:+ after /\ allSpace ws = true /\
                block = "[" +:+ body +:+ "]" +:+ tail /\ allSpace tail = true /\
                endsBlock tail after).
  { intros block. unfold firstBlock.
    destruct (Re.find response) as [[b after]|] eqn:F; [| discriminate]. intros [= <-].
    destruct (find_sound response b after F) as [before [ws [body [tail R]]]].
    exists before, ws, body, tail, after. exact R. }
  split; [exact S |]. intros N.
  destruct (firstBlock response) as [block|] eqn:F; [| auto].
  destruct (S block eq_refl) as [before [ws [body [tail [after [E _]]]]]].
  exfalso. exact (N before (ws +:+ block +:+ after) E).
Qed.

Lemma block_follows_the_marker_witness :
  exists before ws body tail after,
    twoBlocks = before +:+ marker +:+ ws +:+ (observe "A" +:+ newline) +:+ after /\
    allSpace ws = true /\
    observe "A" +:+ newline = "[" +:+ body +:+ "]" +:+ tail /\ allSpace tail = true /\
    endsBlock tail after.
Proof.
  apply (proj1 (block_follows_the_marker twoBlocks) (observe "A" +:+ newline)).
  reflexivity.
Defined.

Lemma find_here (s : string) (m : string * string) :
  Re.match_here s = Some m -> Re.find s = Some m.
Proof.
  intros H. destruct s as [|c s]; [vm_compute in H; discriminate H |].
  rewrite find_cons, H. reflexivity.
Qed.

Lemma match_tail_line_feed (after : string) :
  exists t rest, Re.match_tail (newline +:+ after) = Some (t, rest) /\ allSpace t = true.
Proof.
  destruct (Re.match_tail (newline +:+ after)) as [[t rest]|] eqn:T.
  - exists t, rest. split; [reflexivity |]. now destruct (match_tail_sound _ _ _ T) as [_ [A _]].
  - exfalso. unfold Re.match_tail in T. change (newline +:+ after) with (String nl after) in T.
    simpl in T. destruct (Re.span_space after) as [ws r]. simpl in T.
    destruct (Re.through_last_nl ws); discriminate T.
Qed.

Lemma match_lazy_first (body x t rest : string) :
  occurs "]" body = false ->
  Re.match_tail x = Some (t, rest) ->
  Re.match_lazy (body +:+ "]" +:+ x) = Some (body +:+ "]" +:+ t, rest).
Proof.
  intros N T. induction body as [|c body IH].
  - change ("" +:+ "]" +:+ x) with (String "]" x). simpl. rewrite T. reflexivity.
  - simpl in N. apply orb_false_elim in N. destruct N as [Nc N].
    change (String c body +:+ "]" +:+ x) with (String c (body +:+ "]" +:+ x)).
    change (String c body +:+ "]" +:+ t) with (String c (body +:+ "]" +:+ t)).
    simpl. rewrite (IH N), Nc. reflexivity.
Qed.

(** X18.  The block ends at the first closing bracket that ends a line,
    whatever comes after it: if the text between the opening bracket and
    that bracket has no closing bracket, the block is that text in
    brackets (and trailing white space), even when the JSON array goes on
    in the following lines. *)
Theorem block_ends_at_first_closing_line (ws body after : string) :
  allSpace ws = true ->
  occurs "]" body = false ->
  exists tail,
    firstBlock (marker +:+ ws +:+ "[" +:+ body +:+ "]" +:+ newline +:+ after)
    = Some ("[" +:+ body +:+ "]" +:+ tail) /\
    allSpace tail = true.
Proof.
  intros A N. destruct (match_tail_line_feed after) as [t [rest [T At]]].
  exists t. split; [| exact At]. unfold firstBlock.
  rewrite (find_here _ ("[" +:+ body +:+ "]" +:+ t, rest)); [reflexivity |].
  unfold Re.match_here, marker. rewrite strip_prefix_complete.
  rewrite span_space_complete; [| exact A | intros c r [= <- _]; reflexivity].
  simpl snd. change ("[" +:+ body +:+ "]" +:+ newline +:+ after)
    with (String "[" (body +:+ "]" +:+ (newline +:+ after))).
  simpl. rewrite (match_lazy_first body _ t rest N T). reflexivity.
Qed.

Lemma block_ends_at_first_closing_line_witness :
  exists tail,
    firstBlock spreadAnswer
    = Some ("[" +:+ cat [ "{"; Json.quoted "command"; ":"; Json.quoted "prune_old"; ",";
                          Json.quoted "data"; ":{"; Json.quoted "ids"; ":[1,2" ]
            +:+ "]" +:+ tail) /\
    allSpace tail = true.
Proof.
  exact (block_ends_at_first_closing_line newline
           (cat [ "{"; Json.quoted "command"; ":"; Json.quoted "prune_old"; ",";
                  Json.quoted "data"; ":{"; Json.quoted "ids"; ":[1,2" ])
           (cat ["}}]"; newline]) eq_refl eq_refl).
Defined.

(** The block cut in this way is not a JSON array: the answer yields no
    command. *)
Example spread_block_yields_no_command : commandsOfBlock (firstBlock spreadAnswer) = [].
Proof. vm_compute. reflexivity. Qed.

(* ===================================================================== *)
(** ** The names of the backups *)
(* ===================================================================== *)

Lemma pad_length_checked (width : nat) (bound : nat) :
  forallb (fun k => (String.length (pad width (Z.of_nat k)) =? width)%nat) (seq 0 bound) = true ->
  forall z, 0 <= z < Z.of_nat bound -> String.length (pad width z) = width.
Proof.
  intros H z Hz. rewrite forallb_forall in H.
  specialize (H (Z.to_nat z)). rewrite Z2Nat.id in H by lia.
  apply Nat.eqb_eq, H, in_seq. lia.
Qed.

Lemma pad2_length (z : Z) : 0 <= z <= 99 -> String.length (pad 2 z) = 2%nat.
Proof.
  intros H. apply (pad_length_checked 2 (Z.to_nat 100)); [vm_compute; reflexivity | lia].
Qed.

Lemma pad4_length (z : Z) : 0 <= z <= 9999 -> String.length (pad 4 z) = 4%nat.
Proof.
  intros H. apply (pad_length_checked 4 (Z.to_nat 10000)); [vm_compute; reflexivity | lia].
Qed.

Lemma format_file_length (t : Time) :
  wellFormedTime t -> String.length (format_file t) = 15%nat.
Proof.
  intros [Hy [Hmo [Hd [Hh [Hmi Hs]]]]]. unfold format_file.
  rewrite !length_append, (pad4_length _ Hy), (pad2_length _ Hmo), (pad2_length _ Hd),
    (pad2_length _ Hh), (pad2_length _ Hmi), (pad2_length _ Hs).
  reflexivity.
Qed.

Lemma append_inv_length (a a' x x' : string) :
  String.length a = String.length a' -> a +:+ x = a' +:+ x' -> a = a' /\ x = x'.
Proof.
  revert a'. induction a as [|c a IH]; intros [|c' a'] L E; simpl in L; try discriminate.
  - auto.
  - rewrite !append_cons in E. injection E as -> E.
    destruct (IH a' ltac:(lia) E) as [-> ->]. auto.
Qed.

Lemma backupName_inj (t t' : Time) (n n' : Z) :
  wellFormedTime t -> wellFormedTime t' -> inIntRange n -> inIntRange n' ->
  backupName t ("cycle_" +:+ itoa n) = backupName t' ("cycle_" +:+ itoa n') ->
  n = n' /\ format_file t = format_file t'.
Proof.
  intros W W' R R' E. unfold backupName in E.
  apply append_inv_head in E.
  apply append_inv_length in E;
    [| now rewrite (format_file_length _ W), (format_file_length _ W')].
  destruct E as [Ef E]. split; [| exact Ef].
  apply append_inv_head in E. rewrite !append_assoc in E. apply append_inv_head in E.
  apply append_inv_tail in E. now apply itoa_inj.
Qed.

(** X19.  The name of a backup tells the cycles apart: two backups named
    for different cycle numbers never share a file, whatever their times,
    so [BackupContext] for one cycle leaves the backup of every other
    cycle as it is. *)
Theorem backup_keeps_other_cycles (t t' : Time) (n n' : Z) (mkdir write : outcome) (w : World) :
  wellFormedTime t -> wellFormedTime t' -> inIntRange n -> inIntRange n' ->
  n <> n' ->
  backupName t ("cycle_" +:+ itoa n) <> backupName t' ("cycle_" +:+ itoa n') /\
  backupDir (disk (fst (BackupContext t' mkdir write ("cycle_" +:+ itoa n') w)))
    !! backupName t ("cycle_" +:+ itoa n)
  = backupDir (disk w) !! backupName t ("cycle_" +:+ itoa n).
Proof.
  intros W W' R R' N.
  assert (NE : backupName t ("cycle_" +:+ itoa n) <> backupName t' ("cycle_" +:+ itoa n')).
  { intros E. destruct (backupName_inj t t' n n' W W' R R' E) as [E' _]. contradiction. }
  split; [exact NE |].
  destruct (BackupContext_run t' mkdir write ("cycle_" +:+ itoa n') w) as [r ->]. simpl.
  unfold diskAfterBackup.
  destruct (contextFile (disk w)), mkdir as [[]|?], write as [[]|?]; try reflexivity.
  simpl. apply lookup_insert_ne. congruence.
Qed.

Lemma backup_keeps_other_cycles_witness :
  backupName noon ("cycle_" +:+ itoa 2) <> backupName later ("cycle_" +:+ itoa 3).
Proof.
  apply (backup_keeps_other_cycles noon later 2 3 (Ok tt) (Ok tt) (worldOf 2 seededDisk));
    try (vm_compute; intuition discriminate).
Defined.

(* ===================================================================== *)
(** ** The adapter: gathering and handing over the answer *)
(* ===================================================================== *)

Lemma adapter_handle_response (a : Adapter.AppAdapter) (event : Adapter.AgentEvent) :
  Adapter.lastResponse (Adapter.handle a event)
  = Adapter.lastResponse a
    +:+ (if Adapter.isResponse event then Adapter.messageText event else "").
Proof.
  unfold Adapter.handle.
  destruct (Adapter.isResponse event), (Adapter.isDone event), (Adapter.failure event); simpl;
    try reflexivity; symmetry; apply append_empty_r.
Qed.

Lemma adapter_fold_response (events : list Adapter.AgentEvent) :
  forall a : Adapter.AppAdapter,
    Adapter.lastResponse (fold_left Adapter.handle events a)
    = Adapter.lastResponse a +:+ cat (Adapter.responseTexts events).
Proof.
  induction events as [|ev rest IH]; intros a; simpl.
  - symmetry. apply append_empty_r.
  - rewrite IH, adapter_handle_response. unfold Adapter.responseTexts.
    rewrite filter_cons. destruct (Adapter.isResponse ev) eqn:E.
    + destruct (decide (true = true)); [| contradiction].
      simpl map. rewrite cat_cons, append_assoc. reflexivity.
    + destruct (decide (false = true)); [discriminate |].
      rewrite append_empty_r. reflexivity.
Qed.

(** X20.  The answer the adapter hands over after a run is what it held
    before the run followed by the texts of the run's response events, in
    order (events of other types add nothing); handing the answer over
    clears it, so the answer read after the next run holds that run's
    texts only; a run whose call fails leaves the adapter as it was. *)
Theorem adapter_hands_over_run_texts (a : Adapter.AppAdapter)
    (events next : list Adapter.AgentEvent) (e : string) :
  let a1 := fst (Adapter.CoderAgentRun a (Ok events)) in
  let a2 := fst (Adapter.CoderAgentGetLastResponse a1) in
  let a3 := fst (Adapter.CoderAgentRun a2 (Ok next)) in
  snd (Adapter.CoderAgentGetLastResponse a1)
  = Adapter.lastResponse a +:+ cat (Adapter.responseTexts events) /\
  snd (Adapter.CoderAgentGetLastResponse a3) = cat (Adapter.responseTexts next) /\
  snd (Adapter.CoderAgentGetLastResponse a2) = "" /\
  Adapter.CoderAgentRun a (Err e) = (a, Err e).
Proof.
  simpl. rewrite !adapter_fold_response. simpl. repeat split.
Qed.

(* ===================================================================== *)
(** ** A cycle that fails before the save *)
(* ===================================================================== *)



